(** * Head-first HTML streaming: the phased writer and its two handlers

    A shallow embedding of the Worker's streaming code:
    [lib/types.ts], [lib/constants.ts], [lib/html-templates.ts],
    [lib/streaming.ts], [handlers/stream-quest.ts] and
    [handlers/no-stream-quest.ts].

    Conventions.
    - A JavaScript [number] holding a count of milliseconds is a [Z].
    - A JavaScript string is a [string] of UTF-8 bytes, so that
      [TextEncoder.encode] is the identity on the bytes.
    - An [async] function is a state-passing computation over the store
      of the objects it touches; [await] of a rejected promise raises the
      rejection reason, and the promise an [async] function returns is
      fulfilled by a normal completion and rejected by a raised value.
    - What the platform provides (the stream writer behind the pipeline,
      timers, the clock, number formatting) is taken as a parameter; a
      model of the Streams standard's writer is given below to evaluate
      the code on concrete runs. *)

From Stdlib Require Import ZArith Ascii String List Lia.
From stdpp Require Import base strings gmap list pretty.

Local Open Scope Z_scope.

(** ** Strings of the templates *)

Definition dquote : ascii := ascii_of_nat 34.

(** In the template text below the character [^] (which no template of
    the repository contains) stands for the double-quote character;
    [lit] puts the double quotes back. *)
Fixpoint lit (s : string) : string :=
  match s with
  | EmptyString => EmptyString
  | String c r => String (if Ascii.eqb c "^" then dquote else c) (lit r)
  end.

(** Template-literal interpolation [${n}] of a number. [numberToString n]
    is JavaScript's [String(n)]; [quotientToString a b] is [String(a / b)],
    where [/] is the division of doubles. *)
Class NumberFormat := {
  numberToString : Z -> string;
  quotientToString : Z -> Z -> string;
}.

(** ** lib/types.ts *)

Record QuestConfig := {
  dungeonDelayMs : Z;
  armorDownloadMs : Z;
}.

(** A chunk is a [Uint8Array]. *)
Definition Chunk := list Byte.byte.

(** ** lib/constants.ts *)

Definition DEFAULT_QUEST_CONFIG : QuestConfig :=
  {| dungeonDelayMs := 2000; armorDownloadMs := 800 |}.

Definition RESPONSE_HEADERS : gmap string string :=
  {[ "Content-Type" := "text/html; charset=utf-8";
     "Transfer-Encoding" := "chunked";
     "X-Content-Type-Options" := "nosniff";
     "Cache-Control" := "no-store" ]}.

(** ** lib/html-templates.ts and the page of handlers/no-stream-quest.ts *)

Section Templates.
Context `{NumberFormat}.

Definition getLegendHTML : string :=
  lit "
        <div class=^legend^>
            <div class=^legend-item^><span class=^legend-icon^>🦸</span> <strong>Hero</strong> = Browser</div>
            <div class=^legend-item^><span class=^legend-icon^>🧙</span> <strong>Quest Giver</strong> = Server</div>
            <div class=^legend-item^><span class=^legend-icon^>🗺️</span> <strong>Map</strong> = &lt;head&gt; tag</div>
            <div class=^legend-item^><span class=^legend-icon^>🛡️</span> <strong>Heavy Armor</strong> = CSS/JS/Fonts</div>
            <div class=^legend-item^><span class=^legend-icon^>🏔️</span> <strong>Dungeon</strong> = Database</div>
            <div class=^legend-item^><span class=^legend-icon^>💰</span> <strong>Treasure</strong> = &lt;body&gt; data</div>
        </div>
    ".

Definition generateHeadChunk (config : QuestConfig) : string :=
  lit "<!DOCTYPE html>
<html lang=^en^>
<head>
    <meta charset=^UTF-8^>
    <meta name=^viewport^ content=^width=device-width, initial-scale=1.0^>
    <title>⚔️ The Great Streaming Quest</title>
    
    <!-- 
        HEAVY ARMOR: External assets that the Hero (Browser) downloads
        WHILE the Quest Giver (Server) is in the Dungeon (Database).
        This parallel downloading is the KEY performance benefit!
    -->
    
    <!-- Fonts (External Heavy Armor) -->
    <link rel=^preconnect^ href=^https://fonts.googleapis.com^>
    <link rel=^preconnect^ href=^https://fonts.gstatic.com^ crossorigin>
    <link href=^https://fonts.googleapis.com/css2?family=MedievalSharp&family=Fira+Code:wght@400;700&display=swap^ rel=^stylesheet^ onload=^if(window.QuestLogger) QuestLogger.onCssLoaded();^>
    
    <!-- Main Stylesheet (Heavy Armor - CSS) -->
    <link rel=^stylesheet^ href=^/css/styles.css^ onload=^if(window.QuestLogger) QuestLogger.onCssLoaded();^>
    
    <!-- Quest Logger (Heavy Armor - JS) -->
    <script src=^/js/quest.js^></script>
    
    <!-- Inline fallback timer (in case JS hasn't loaded yet) -->
    <script>
        // Fallback: Define basic logging if quest.js hasn't loaded yet
        if (!window.QuestLogger) {
            window.questStartTime = performance.now();
            window.logToQuest = function(actor, message, type) {
                var log = document.getElementById('quest-entries');
                if (!log) return;
                var elapsed = (performance.now() - window.questStartTime).toFixed(0).padStart(4, ' ');
                var entry = document.createElement('div');
                entry.className = 'log-entry';
                entry.innerHTML = '<span class=^timestamp^>[' + elapsed + 'ms]</span> <span class=^actor ' + type + '^>' + actor + ':</span> <span class=^message^>' + message + '</span>';
                log.appendChild(entry);
            };
        }
    </script>
</head>
<body>
    <a href=^/^ class=^home-btn^ title=^Home^>🏠</a>
    <div class=^container^>
        <h1>⚔️ The Great Streaming Quest 🏰</h1>
        <p class=^subtitle^>Demonstrating HTML &lt;head&gt; Streaming for Faster Page Loads</p>
        
        "
  +:+ getLegendHTML
  +:+ lit "
        
        <div class=^quest-log^>
            <h2>📜 Quest Log</h2>
            <div id=^quest-entries^></div>
            
            <script>
                // Log initial messages - use QuestLogger if available, fallback otherwise
                var log = window.QuestLogger ? QuestLogger.log : window.logToQuest;
                log('🧙 Quest Giver', 'The Map (&lt;head&gt;) has been delivered! I am now descending into the Dungeon to fetch your Treasure...', 'server');
                log('🦸 Hero', 'Map received! I can see the quest layout. Now downloading my Heavy Armor (CSS, Fonts, JS)...', 'hero');
            </script>
            
            <div id=^loading-indicator^ class=^loading^>
                <div class=^spinner^></div>
                <span>🧙 Quest Giver is battling Database Dragons in the Dungeon... ("
  +:+ quotientToString (dungeonDelayMs config) 1000
  +:+ lit " second simulated delay)</span>
            </div>
        </div>
".

Definition generateBodyChunk (config : QuestConfig) : string :=
  lit "
        <script>
            // Notify QuestLogger that treasure has arrived
            if (window.QuestLogger) {
                QuestLogger.onTreasureReceived();
            } else {
                document.getElementById('loading-indicator').classList.add('hidden');
                logToQuest('🧙 Quest Giver', '🏆 I have returned from the Dungeon! The Treasure is being delivered!', 'server');
            }
        </script>
        
        <div class=^treasure-box^>
            <h3>🏆 TREASURE ACQUIRED! 🏆</h3>
            <p>The Quest Giver successfully retrieved the data from the Dungeon (Database)!</p>
            
            <div class=^stats^>
                <div class=^stat^>
                    <div class=^stat-value^ id=^total-time^>--</div>
                    <div class=^stat-label^>Total Quest Time</div>
                </div>
                <div class=^stat^>
                    <div class=^stat-value^ id=^armor-time^>--</div>
                    <div class=^stat-label^>Armor Equipped</div>
                </div>
                <div class=^stat^>
                    <div class=^stat-value^ id=^time-saved^>--</div>
                    <div class=^stat-label^>Time Saved by Streaming</div>
                </div>
            </div>
        </div>
        
        <script>
            // Display final statistics using QuestLogger or fallback
            if (window.QuestLogger) {
                QuestLogger.showFinalStats("
  +:+ numberToString (dungeonDelayMs config)
  +:+ lit ");
            } else {
                var totalTime = (performance.now() - window.questStartTime).toFixed(0);
                document.getElementById('total-time').textContent = totalTime + 'ms';
                document.getElementById('armor-time').textContent = '~"
  +:+ numberToString (armorDownloadMs config)
  +:+ lit "ms';
                document.getElementById('time-saved').textContent = '~"
  +:+ numberToString (armorDownloadMs config)
  +:+ lit "ms';
                logToQuest('🦸 Hero', '💰 Treasure received! Quest complete in ' + totalTime + 'ms!', 'hero');
            }
        </script>
        
        <footer class=^footer^>
            For demonstration and educational purposes only. 
            <a href=^https://github.com/DavidJKTofan/cf-head-html-streaming-performance^ target=^_blank^>View on GitHub</a>
        </footer>
    </div>
</body>
</html>
".

Definition generateErrorChunk (errorMessage : string) : string :=
  lit "<div style=^color:red;padding:2rem;^>⚠️ Quest Failed: "
  +:+ errorMessage
  +:+ lit "</div></body></html>".

Definition generateFullPageHTML (config : QuestConfig) (dbTime : Z) : string :=
  lit "<!DOCTYPE html>
<html lang=^en^>
<head>
    <meta charset=^UTF-8^>
    <meta name=^viewport^ content=^width=device-width, initial-scale=1.0^>
    <title>❌ Traditional (No Streaming)</title>
    
    <!-- 
        PROBLEM: The browser only sees this NOW, after waiting "
  +:+ numberToString dbTime
  +:+ lit "ms!
        It could have been downloading these assets during that time.
    -->
    <link rel=^preconnect^ href=^https://fonts.googleapis.com^>
    <link rel=^preconnect^ href=^https://fonts.gstatic.com^ crossorigin>
    <link href=^https://fonts.googleapis.com/css2?family=MedievalSharp&family=Fira+Code:wght@400;700&display=swap^ rel=^stylesheet^>
    <link rel=^stylesheet^ href=^/css/styles.css^>
    
    <script>
        const pageReceivedTime = performance.now();
        window.noStreamState = { 
            pageReceivedTime,
            cssLoadedTime: null,
            jsLoadedTime: null,
            allReadyTime: null 
        };
    </script>
    <script src=^/js/quest.js^></script>
</head>
<body>
    <a href=^/^ class=^home-btn^ title=^Home^>🏠</a>
    <div class=^container^>
        <h1 style=^background: linear-gradient(135deg, #ff4444, #cc0000); -webkit-background-clip: text; -webkit-text-fill-color: transparent;^>❌ Traditional Approach (No Streaming)</h1>
        <p class=^subtitle^>The browser waited "
  +:+ numberToString (dungeonDelayMs config)
  +:+ lit "ms before receiving ANY HTML</p>
        
        <div class=^legend^ style=^border-color: #ff4444;^>
            <div class=^legend-item^><span class=^legend-icon^>⏳</span> <strong>Server waited</strong> "
  +:+ numberToString dbTime
  +:+ lit "ms</div>
            <div class=^legend-item^><span class=^legend-icon^>📥</span> <strong>Then</strong> sent HTML</div>
            <div class=^legend-item^><span class=^legend-icon^>🐌</span> <strong>Then</strong> browser downloads CSS/JS</div>
            <div class=^legend-item^><span class=^legend-icon^>📊</span> <strong>Total</strong> = Sequential time</div>
        </div>
        
        <div class=^quest-log^>
            <h2>📜 Timeline (Sequential - Slow!)</h2>
            <div id=^quest-entries^></div>
            
            <script>
                var log = window.QuestLogger ? QuestLogger.log : window.logToQuest;
                if (!log) {
                    log = function(actor, msg, type) {
                        var el = document.getElementById('quest-entries');
                        el.innerHTML += '<div class=^log-entry^><span class=^actor ' + type + '^>' + actor + ':</span> ' + msg + '</div>';
                    };
                }
                log('⏳ Server', 'I waited "
  +:+ numberToString dbTime
  +:+ lit "ms in the Dungeon BEFORE sending you anything...', 'server');
                log('🦸 Browser', 'I just received the HTML! NOW I can start downloading CSS/JS...', 'hero');
            </script>
        </div>
        
        <script>
            // Track when CSS/JS finish loading
            var checkCount = 0;
            function checkAssetsLoaded() {
                checkCount++;
                var state = window.noStreamState;
                
                // Check if fonts are loaded (proxy for CSS)
                if (!state.cssLoadedTime && document.fonts && document.fonts.status === 'loaded') {
                    state.cssLoadedTime = performance.now();
                }
                
                // Check if our QuestLogger is ready (proxy for JS)
                if (!state.jsLoadedTime && window.QuestLogger && window.QuestLogger.state) {
                    state.jsLoadedTime = performance.now();
                }
                
                if (state.cssLoadedTime && state.jsLoadedTime) {
                    state.allReadyTime = performance.now();
                    showFinalStats();
                } else if (checkCount < 100) {
                    setTimeout(checkAssetsLoaded, 50);
                } else {
                    // Fallback after 5 seconds
                    state.allReadyTime = performance.now();
                    showFinalStats();
                }
            }
            
            function showFinalStats() {
                var state = window.noStreamState;
                var totalTime = state.allReadyTime;
                var assetTime = totalTime - state.pageReceivedTime;
                
                var log = window.QuestLogger ? QuestLogger.log : window.logToQuest;
                log('🦸 Browser', '🛡️ CSS/JS finally loaded after ' + assetTime.toFixed(0) + 'ms (started AFTER server delay)', 'hero');
                log('📊 System', '<strong style=^color:#ff4444^>TOTAL TIME: ~' + ("
  +:+ numberToString dbTime
  +:+ lit " + assetTime).toFixed(0) + 'ms</strong> ("
  +:+ numberToString dbTime
  +:+ lit "ms server + ' + assetTime.toFixed(0) + 'ms assets = SEQUENTIAL)', 'system');
                
                // Show comparison box
                document.getElementById('comparison-stats').classList.remove('hidden');
                document.getElementById('server-wait').textContent = '"
  +:+ numberToString dbTime
  +:+ lit "ms';
                document.getElementById('asset-download').textContent = assetTime.toFixed(0) + 'ms';
                document.getElementById('total-sequential').textContent = ("
  +:+ numberToString dbTime
  +:+ lit " + assetTime).toFixed(0) + 'ms';
            }
            
            setTimeout(checkAssetsLoaded, 100);
        </script>
        
        <div id=^comparison-stats^ class=^treasure-box hidden^ style=^border-color: #ff4444; background: linear-gradient(135deg, #2d0000, #3d0000);^>
            <h3 style=^color: #ff4444;^>❌ Sequential Loading (Slow)</h3>
            <p style=^color: #d49494;^>Assets downloaded AFTER server finished - time wasted!</p>
            
            <div class=^stats^>
                <div class=^stat^>
                    <div class=^stat-value^ id=^server-wait^ style=^color: #ff4444;^>--</div>
                    <div class=^stat-label^>Server Wait</div>
                </div>
                <div class=^stat^>
                    <div class=^stat-value^ id=^asset-download^ style=^color: #ff4444;^>--</div>
                    <div class=^stat-label^>Asset Download</div>
                </div>
                <div class=^stat^>
                    <div class=^stat-value^ id=^total-sequential^ style=^color: #ff4444;^>--</div>
                    <div class=^stat-label^>Total (Sequential)</div>
                </div>
            </div>
            
            <p style=^margin-top: 1rem; color: #888;^>
                <a href=^/quest^ style=^color: #3fb950;^>→ Try the Streaming version</a> to see the difference!
            </p>
        </div>
        
        <footer class=^footer^>
            For demonstration and educational purposes only. 
            <a href=^https://github.com/DavidJKTofan/cf-head-html-streaming-performance^ target=^_blank^>View on GitHub</a>
        </footer>
    </div>
</body>
</html>".

End Templates.

(** ** lib/streaming.ts: encodeChunk *)

Definition encodeChunk (content : string) : Chunk :=
  list_byte_of_string content.

(** ** Thrown values, promises and async functions *)

(** What a [catch] clause can receive: an instance of [Error], with its
    [message], or any other value. *)
Inductive JsValue :=
  | ErrorObject (message : string)
  | OtherValue (description : string).

(** How a [Promise<void>] settles. *)
Inductive Settlement :=
  | Fulfilled
  | Rejected (reason : JsValue).

(** How a block of statements completes. *)
Inductive Completion (A : Type) :=
  | Normal (value : A)
  | Thrown (reason : JsValue).
Arguments Normal {A} value.
Arguments Thrown {A} reason.

(** The operations the handlers perform on the objects around them, in
    the order they are issued. *)
Inductive Operation :=
  | ConsoleLog (message : string)
  | ConsoleError (message : string) (error : JsValue)
  | WriterWrite (chunk : Chunk)
  | WriterClose
  | Delay (ms : Z).

(** An operation together with the way it settled. *)
Definition Step : Type := Operation * Settlement.

(** The store of the surrounding objects, and the journal of the steps
    the running function has performed so far. *)
Record World (S : Type) := {
  store : S;
  journal : list Step;
}.
Arguments store {S} _.
Arguments journal {S} _.

Definition start {S : Type} (s : S) : World S :=
  {| store := s; journal := [] |}.

Definition Task (S A : Type) : Type := World S -> Completion A * World S.

Definition ret {S A : Type} (a : A) : Task S A :=
  fun w => (Normal a, w).

Definition bind {S A B : Type} (t : Task S A) (k : A -> Task S B) : Task S B :=
  fun w =>
    match t w with
    | (Normal a, w1) => k a w1
    | (Thrown e, w1) => (Thrown e, w1)
    end.

Declare Scope task_scope.
Delimit Scope task_scope with task.
Notation "x <- t ;; k" := (bind t (fun x => k))
  (at level 100, t at next level, right associativity) : task_scope.
Notation "t ;; k" := (bind t (fun _ => k))
  (at level 100, right associativity) : task_scope.

(** A synchronous call on the console: it is journalled and never throws. *)
Definition console_log {S : Type} (message : string) : Task S unit :=
  fun w =>
    (Normal tt,
     {| store := store w;
        journal := journal w ++ [(ConsoleLog message, Fulfilled)] |}).

Definition console_error {S : Type} (message : string) (error : JsValue)
  : Task S unit :=
  fun w =>
    (Normal tt,
     {| store := store w;
        journal := journal w ++ [(ConsoleError message error, Fulfilled)] |}).

(** [await promise], where [promise] is the result of operation [o]: the
    operation acts on the store, the step is journalled, and a rejection
    is thrown at the [await]. *)
Definition await {S : Type} (o : Operation) (promise : S -> Settlement * S)
  : Task S unit :=
  fun w =>
    let (r, s1) := promise (store w) in
    (match r with
     | Fulfilled => Normal tt
     | Rejected e => Thrown e
     end,
     {| store := s1; journal := journal w ++ [(o, r)] |}).

(** [try { body } catch (error) { handler } finally { finalizer }].  The
    handler runs when the body throws; the finalizer runs on every exit
    path, and when the finalizer itself throws, its exception replaces
    the completion reached so far. *)
Definition tryCatchFinally {S A : Type}
  (body : Task S A) (handler : JsValue -> Task S A) (finalizer : Task S unit)
  : Task S A :=
  fun w =>
    let (c1, w1) :=
      match body w with
      | (Normal a, w1) => (Normal a, w1)
      | (Thrown e, w1) => handler e w1
      end in
    match finalizer w1 with
    | (Normal _, w2) => (c1, w2)
    | (Thrown e, w2) => (Thrown e, w2)
    end.

(** The promise returned by a call of an [async] function with a [void]
    result. *)
Definition async {S : Type} (body : Task S unit) (w : World S)
  : Settlement * World S :=
  match body w with
  | (Normal _, w1) => (Fulfilled, w1)
  | (Thrown e, w1) => (Rejected e, w1)
  end.

(** ** lib/types.ts: StreamWriter *)

Record StreamWriter (S : Type) := {
  write : Chunk -> S -> Settlement * S;
  close : S -> Settlement * S;
}.
Arguments write {S} _ _ _.
Arguments close {S} _ _.

(** ** lib/streaming.ts *)

(** The platform's [WritableStreamDefaultWriter] obtained from
    [new TransformStream().writable.getWriter()], and the readable end
    handed to the response. *)
Record TransformStream (S : Type) := {
  readableEnd : nat;
  rawWrite : Chunk -> S -> Settlement * S;
  rawClose : S -> Settlement * S;
}.
Arguments readableEnd {S} _.
Arguments rawWrite {S} _ _ _.
Arguments rawClose {S} _ _.

Record StreamingPipeline (S : Type) := {
  readable : nat;
  writer : StreamWriter S;
}.
Arguments readable {S} _.
Arguments writer {S} _.

(** [write] and [close] of the pipeline's writer are async functions
    whose body is a single [await] of the raw writer's promise: each
    settles as that promise settles. *)
Definition createStreamingPipeline {S : Type} (ts : TransformStream S)
  : StreamingPipeline S :=
  {| readable := readableEnd ts;
     writer :=
       {| write := fun chunk st => rawWrite ts chunk st;
          close := fun st => rawClose ts st |} |}.

(** Timers.  The executor of [new Promise] receives the promise's two
    settling functions; [setTimeout handler ms] never throws and arranges
    for [handler] to be called once, after [ms] milliseconds, a negative
    [ms] counting as zero. *)
Inductive Settle :=
  | Resolve
  | Reject (reason : JsValue).

Record Timer := {
  handler : Settle;
  timeout : Z;
}.

Definition setTimeout (h : Settle) (ms : Z) : Timer :=
  {| handler := h; timeout := Z.max 0 ms |}.

Definition newPromise (executor : Settle -> (JsValue -> Settle) -> Timer)
  : Timer :=
  executor Resolve Reject.

(** The clock, and what the rest of the world does to the store while the
    running function is suspended on a timer of the given timeout. *)
Class Host (S : Type) := {
  dateNow : S -> Z;
  passTime : Z -> S -> S;
}.

(** Awaiting a promise that a timer settles. *)
Definition settleByTimer {S : Type} `{Host S} (t : Timer) (st : S)
  : Settlement * S :=
  (match handler t with
   | Resolve => Fulfilled
   | Reject e => Rejected e
   end,
   passTime (timeout t) st).

Definition simulateDungeonDelay {S : Type} `{Host S} (ms : Z)
  : S -> Settlement * S :=
  settleByTimer (newPromise (fun resolve _ => setTimeout resolve ms)).

(** ** The Fetch API's Response *)

Inductive Body :=
  | TextBody (text : string)
  | StreamBody (readableStream : nat).

(** The second argument of [new Response]: both handlers give [headers]
    only. *)
Record ResponseInit := {
  initStatus : option Z;
  initHeaders : gmap string string;
}.

Record Response := {
  status : Z;
  headers : gmap string string;
  body : Body;
}.

(** Header names are compared without regard to case. *)
Definition lowerAscii (c : ascii) : ascii :=
  let n := nat_of_ascii c in
  if ((65 <=? n) && (n <=? 90))%nat then ascii_of_nat (n + 32) else c.

Fixpoint lowerString (s : string) : string :=
  match s with
  | EmptyString => EmptyString
  | String c r => String (lowerAscii c) (lowerString r)
  end.

Definition hasHeader (name : string) (hs : gmap string string) : bool :=
  existsb (fun kv => String.eqb (lowerString (fst kv)) (lowerString name))
    (map_to_list hs).

(** The content type that comes with a body: a string is plain text in
    UTF-8, a stream has none. *)
Definition bodyType (b : Body) : option string :=
  match b with
  | TextBody _ => Some "text/plain;charset=UTF-8"
  | StreamBody _ => None
  end.

(** [new Response(body, init)]: the status is 200 unless [init] gives
    one; the headers are those of [init], and when they have no
    [Content-Type] and the body comes with a type, that type is added. *)
Definition newResponse (b : Body) (init : ResponseInit) : Response :=
  {| status := default 200 (initStatus init);
     headers :=
       match bodyType b with
       | Some type =>
           if hasHeader "Content-Type" (initHeaders init)
           then initHeaders init
           else <[ "Content-Type" := type ]> (initHeaders init)
       | None => initHeaders init
       end;
     body := b |}.

Record Request := {
  method : string;
  url : string;
}.

(** [Env] has the one optional binding [ASSETS]. *)
Record Env := {
  ASSETS : option nat;
}.

Local Open Scope task_scope.

(** ** handlers/stream-quest.ts *)

Section StreamQuest.
Context {S : Type} `{NumberFormat}.

Definition errorMessageOf (error : JsValue) : string :=
  match error with
  | ErrorObject message => message
  | OtherValue _ => "Unknown error"
  end.

(** [streamQuestContent], with the delay function it calls as a
    parameter, so that a delay that rejects can be put in the place of
    [simulateDungeonDelay]. *)
Definition streamQuestContentWith
  (delay : Z -> S -> Settlement * S)
  (writer : StreamWriter S) (config : QuestConfig) : Task S unit :=
  tryCatchFinally
    (console_log "[Quest] Phase 1: Streaming <head> (The Map)" ;;
     await (WriterWrite (encodeChunk (generateHeadChunk config)))
           (write writer (encodeChunk (generateHeadChunk config))) ;;
     console_log ("[Quest] Phase 2: Entering Dungeon ("
                  +:+ numberToString (dungeonDelayMs config)
                  +:+ "ms delay)") ;;
     await (Delay (dungeonDelayMs config)) (delay (dungeonDelayMs config)) ;;
     console_log "[Quest] Phase 3: Streaming <body> (The Treasure)" ;;
     await (WriterWrite (encodeChunk (generateBodyChunk config)))
           (write writer (encodeChunk (generateBodyChunk config))))
    (fun error =>
       console_error "[Quest] Error during streaming:" error ;;
       let errorMessage := errorMessageOf error in
       await (WriterWrite (encodeChunk (generateErrorChunk errorMessage)))
             (write writer (encodeChunk (generateErrorChunk errorMessage))))
    (console_log "[Quest] Stream closed" ;;
     await WriterClose (close writer)).

Context `{Host S}.

(** [streamQuestContent] as the source has it. *)
Definition streamQuestContent
  (writer : StreamWriter S) (config : QuestConfig) : Task S unit :=
  streamQuestContentWith simulateDungeonDelay writer config.

(** What [handleStreamQuest] hands out: the response it returns, and the
    promise it passes to [ctx.waitUntil], that is, the call of the async
    function [streamQuestContent]. *)
Record StreamQuestResult := {
  response : Response;
  waitUntil : World S -> Settlement * World S;
}.

(** The [config] parameter defaults to [DEFAULT_QUEST_CONFIG]. *)
Definition handleStreamQuest
  (ts : TransformStream S)
  (request : Request) (env : Env) (config : option QuestConfig)
  : StreamQuestResult :=
  let config := default DEFAULT_QUEST_CONFIG config in
  let pipeline := createStreamingPipeline ts in
  {| waitUntil := async (streamQuestContent (writer pipeline) config);
     response :=
       newResponse (StreamBody (readable pipeline))
         {| initStatus := None; initHeaders := RESPONSE_HEADERS |} |}.

End StreamQuest.

(** ** handlers/no-stream-quest.ts *)

Section NoStreamQuest.
Context {S : Type} `{NumberFormat} `{Host S}.

Definition date_now : Task S Z :=
  fun w => (Normal (dateNow (store w)), w).

Definition handleNoStreamQuest
  (request : Request) (env : Env) (config : option QuestConfig)
  : Task S Response :=
  let config := default DEFAULT_QUEST_CONFIG config in
  console_log "[No-Stream Quest] Starting - will wait for all data before responding" ;;
  startTime <- date_now ;;
  await (Delay (dungeonDelayMs config))
        (simulateDungeonDelay (dungeonDelayMs config)) ;;
  endTime <- date_now ;;
  let dbTime := endTime - startTime in
  console_log ("[No-Stream Quest] Database query complete after "
               +:+ numberToString dbTime +:+ "ms") ;;
  let html := generateFullPageHTML config dbTime in
  ret (newResponse (TextBody html)
         {| initStatus := None;
            initHeaders :=
              {[ "Content-Type" := "text/html; charset=utf-8";
                 "X-Content-Type-Options" := "nosniff";
                 "Cache-Control" := "no-store" ]} |}).

End NoStreamQuest.

(** ** A writable stream as the Streams standard has it

    The [TransformStream] of the platform is not part of the repository.
    The model below keeps what the standard says of a writer's [write]
    and [close] once their promises have settled: a writable stream
    accepts chunks in order; [write] on an errored stream rejects with
    the stored error and on a closed stream with a [TypeError]; [close]
    on a stream that is closed or errored rejects with a [TypeError].
    The stream becomes errored when the consumer of the readable end goes
    away. *)

Inductive StreamState :=
  | Writable
  | Closed
  | Errored (storedError : JsValue).

(** The store of one request: the clock, the stream, the chunks that
    reached the readable end, and the time at which the consumer goes
    away, if it does. *)
Record Isolate := {
  clock : Z;
  streamState : StreamState;
  delivered : list Chunk;
  disconnectAt : option Z;
}.

Definition closedStreamError : JsValue :=
  ErrorObject "This WritableStream has been closed.".

Definition disconnectError : JsValue :=
  ErrorObject "Network connection lost.".

Definition standardWrite (chunk : Chunk) (st : Isolate) : Settlement * Isolate :=
  match streamState st with
  | Writable =>
      (Fulfilled,
       {| clock := clock st;
          streamState := Writable;
          delivered := delivered st ++ [chunk];
          disconnectAt := disconnectAt st |})
  | Closed => (Rejected closedStreamError, st)
  | Errored e => (Rejected e, st)
  end.

Definition standardClose (st : Isolate) : Settlement * Isolate :=
  match streamState st with
  | Writable =>
      (Fulfilled,
       {| clock := clock st;
          streamState := Closed;
          delivered := delivered st;
          disconnectAt := disconnectAt st |})
  | Closed | Errored _ => (Rejected closedStreamError, st)
  end.

Definition standardTransformStream : TransformStream Isolate :=
  {| readableEnd := 0%nat;
     rawWrite := standardWrite;
     rawClose := standardClose |}.

(** While the function is suspended the clock advances by the timeout,
    and a writable stream whose consumer has gone away by then is
    errored. *)
Definition isolatePassTime (t : Z) (st : Isolate) : Isolate :=
  let now := clock st + t in
  {| clock := now;
     streamState :=
       match streamState st, disconnectAt st with
       | Writable, Some d => if d <=? now then Errored disconnectError else Writable
       | state, _ => state
       end;
     delivered := delivered st;
     disconnectAt := disconnectAt st |}.

#[export] Instance isolateHost : Host Isolate :=
  {| dateNow := clock; passTime := isolatePassTime |}.

(** A request whose consumer stays, one whose consumer leaves one second
    in, and one whose stream is errored before the first write. *)
Definition freshIsolate : Isolate :=
  {| clock := 0; streamState := Writable; delivered := []; disconnectAt := None |}.

Definition leavingIsolate : Isolate :=
  {| clock := 0; streamState := Writable; delivered := []; disconnectAt := Some 1000 |}.

Definition goneIsolate : Isolate :=
  {| clock := 0; streamState := Errored disconnectError; delivered := [];
     disconnectAt := Some 0 |}.

(** Decimal rendering of integers, and of a quotient to at most three
    decimals without trailing zeros, which is what [String] gives for a
    count of milliseconds and for that count divided by 1000. *)
Definition trimFraction (r b : Z) : string :=
  let m := r * 1000 / b in
  if m =? 0 then ""
  else if m mod 100 =? 0 then "." +:+ pretty (m / 100)
  else if m mod 10 =? 0 then "." +:+ (if m <? 100 then "0" else "") +:+ pretty (m / 10)
  else "." +:+ (if m <? 10 then "00" else if m <? 100 then "0" else "") +:+ pretty m.

Definition decimalQuotient (a b : Z) : string :=
  (if a <? 0 then "-" else "")
  +:+ pretty (Z.abs a / b) +:+ trimFraction (Z.abs a mod b) b.

#[export] Instance decimalFormat : NumberFormat :=
  {| numberToString := pretty; quotientToString := decimalQuotient |}.

(** A delay that rejects, to be put in the place of [simulateDungeonDelay]. *)
Definition rejectingDelay {S : Type} (message : string) (ms : Z) (st : S)
  : Settlement * S :=
  (Rejected (ErrorObject message), st).

(** ** Reading a journal *)

Definition operations (j : list Step) : list Operation := map fst j.

Definition isWriterOperation (o : Operation) : bool :=
  match o with
  | WriterWrite _ | WriterClose => true
  | _ => false
  end.

Definition isClose (o : Operation) : bool :=
  match o with
  | WriterClose => true
  | _ => false
  end.

(** The operations issued against the writer, in order. *)
Definition writerOperations (j : list Step) : list Operation :=
  List.filter isWriterOperation (operations j).

Definition closeCount (j : list Step) : nat :=
  length (List.filter isClose (operations j)).

(** The journal and the settlement of one call of the streaming routine
    on a fresh journal. *)
Definition runJournal {S : Type} (t : Task S unit) (s : S) : list Step :=
  journal (snd (async t (start s))).

Definition runSettlement {S : Type} (t : Task S unit) (s : S) : Settlement :=
  fst (async t (start s)).

(** What an operation does to the store and how it settles: a write and
    the close are the writer's, a delay is the delay function's, and the
    console leaves the store alone. *)
Definition act {S : Type} (delay : Z -> S -> Settlement * S)
  (writer : StreamWriter S) (o : Operation) (st : S) : Settlement * S :=
  match o with
  | ConsoleLog _ | ConsoleError _ _ => (Fulfilled, st)
  | WriterWrite chunk => write writer chunk st
  | WriterClose => close writer st
  | Delay ms => delay ms st
  end.

(** The steps of [j] were performed one after the other from the store
    [st], each settling as journalled, and they left the store
    [st_final]. *)
Fixpoint performed {S : Type} (delay : Z -> S -> Settlement * S)
  (writer : StreamWriter S) (j : list Step) (st st_final : S) : Prop :=
  match j with
  | [] => st_final = st
  | (o, r) :: rest =>
      r = fst (act delay writer o st)
      /\ performed delay writer rest (snd (act delay writer o st)) st_final
  end.

(** ** The shapes of a run of the phased writer

    The three outcomes of a streaming attempt: completed (head and body
    written), failed (head written, then the delay or the body write
    threw), aborted (the head write threw); each ends with the closing
    steps. *)

Section Shapes.
Context `{NumberFormat}.
Variable config : QuestConfig.

Definition headChunk : Chunk := encodeChunk (generateHeadChunk config).
Definition bodyChunk : Chunk := encodeChunk (generateBodyChunk config).
Definition errorChunk (e : JsValue) : Chunk :=
  encodeChunk (generateErrorChunk (errorMessageOf e)).

Definition logged (message : string) : Step := (ConsoleLog message, Fulfilled).

Definition phase1 : Step := logged "[Quest] Phase 1: Streaming <head> (The Map)".
Definition phase2 : Step :=
  logged ("[Quest] Phase 2: Entering Dungeon ("
          +:+ numberToString (dungeonDelayMs config) +:+ "ms delay)").
Definition phase3 : Step := logged "[Quest] Phase 3: Streaming <body> (The Treasure)".

(** The steps of the [catch] clause and of the [finally] clause. *)
Definition recovery (e : JsValue) (r : Settlement) : list Step :=
  [ (ConsoleError "[Quest] Error during streaming:" e, Fulfilled);
    (WriterWrite (errorChunk e), r) ].

Definition closing (rc : Settlement) : list Step :=
  [ logged "[Quest] Stream closed"; (WriterClose, rc) ].

(** The settlement of the routine's promise, from the completion [c]
    reached before the [finally] clause and the settlement [rc] of
    [close]. *)
Definition afterClose (c rc : Settlement) : Settlement :=
  match rc with
  | Fulfilled => c
  | Rejected e => Rejected e
  end.

Inductive PhasedRun : list Step -> Settlement -> Prop :=
  | run_completed rc :
      PhasedRun
        ([ phase1; (WriterWrite headChunk, Fulfilled);
           phase2; (Delay (dungeonDelayMs config), Fulfilled);
           phase3; (WriterWrite bodyChunk, Fulfilled) ] ++ closing rc)
        (afterClose Fulfilled rc)
  | run_aborted e r rc :
      PhasedRun
        ([ phase1; (WriterWrite headChunk, Rejected e) ]
           ++ recovery e r ++ closing rc)
        (afterClose r rc)
  | run_failed_in_delay e r rc :
      PhasedRun
        ([ phase1; (WriterWrite headChunk, Fulfilled);
           phase2; (Delay (dungeonDelayMs config), Rejected e) ]
           ++ recovery e r ++ closing rc)
        (afterClose r rc)
  | run_failed_in_body e r rc :
      PhasedRun
        ([ phase1; (WriterWrite headChunk, Fulfilled);
           phase2; (Delay (dungeonDelayMs config), Fulfilled);
           phase3; (WriterWrite bodyChunk, Rejected e) ]
           ++ recovery e r ++ closing rc)
        (afterClose r rc).

(** A body chunk or an error chunk. *)
Definition isBodyOrError (o : Operation) : Prop :=
  o = WriterWrite bodyChunk \/ exists e, o = WriterWrite (errorChunk e).

End Shapes.

(** Two operations of two runs under configs [c1] and [c2] correspond:
    they are the same operation, or the writes of the two body chunks. *)
Definition sameUpToBody `{NumberFormat} (c1 c2 : QuestConfig)
  (o1 o2 : Operation) : Prop :=
  o1 = o2 \/ (o1 = WriterWrite (bodyChunk c1) /\ o2 = WriterWrite (bodyChunk c2)).

(** The durations the routine asked to wait for. *)
Definition delaysAwaited (j : list Step) : list Z :=
  omap (fun o => match o with Delay ms => Some ms | _ => None end) (operations j).

(** The close step, or the write of an error chunk, was rejected. *)
Definition closeRejected (j : list Step) : Prop :=
  exists e, In (WriterClose, Rejected e) j.

Definition errorChunkRejected `{NumberFormat} (j : list Step) : Prop :=
  exists cause e, In (WriterWrite (errorChunk cause), Rejected e) j.

(** The [catch] clause was entered. *)
Definition errorPathTaken (j : list Step) : Prop :=
  exists message e, In (ConsoleError message e, Fulfilled) j.

Definition endsWith (s suffix : string) : Prop :=
  exists before, s = before +:+ suffix.

(** The pipeline's writer over the standard stream. *)
Definition standardWriter : StreamWriter Isolate :=
  writer (createStreamingPipeline standardTransformStream).

(** The headers of the non-streaming response. *)
Definition noStreamHeaders : gmap string string :=
  {[ "Content-Type" := "text/html; charset=utf-8";
     "X-Content-Type-Options" := "nosniff";
     "Cache-Control" := "no-store" ]}.

(** ** index.ts: the router *)

(** The page is one template literal in the source; it is cut here into
    pieces of forty lines. *)
Definition getComparisonHTML : string :=
  lit "<!DOCTYPE html>
<html lang=^en^>
<head>
    <meta charset=^UTF-8^>
    <meta name=^viewport^ content=^width=device-width, initial-scale=1.0^>
    <title>⚡ Streaming vs Traditional - Visual Race</title>
    <link rel=^preconnect^ href=^https://fonts.googleapis.com^>
    <link href=^https://fonts.googleapis.com/css2?family=MedievalSharp&family=Fira+Code:wght@400;700&display=swap^ rel=^stylesheet^>
    <style>
        * { box-sizing: border-box; margin: 0; padding: 0; }
        body {
            font-family: 'Fira Code', monospace;
            background: #0d1117;
            color: #e6edf3;
            padding: 1rem;
            overflow-x: hidden;
        }
        h1 {
            font-family: 'MedievalSharp', cursive;
            text-align: center;
            font-size: 1.8rem;
            margin-bottom: 0.25rem;
            background: linear-gradient(135deg, #ffd700, #ff9500);
            -webkit-background-clip: text;
            -webkit-text-fill-color: transparent;
        }
        .subtitle { text-align: center; color: #8b949e; margin-bottom: 0.75rem; font-size: 0.85rem; }
        .controls {
            display: flex;
            justify-content: center;
            gap: 1rem;
            margin-bottom: 1rem;
        }
        button {
            font-family: 'MedievalSharp', cursive;
            font-size: 1.1rem;
            padding: 0.6rem 1.5rem;
            border: none;
            border-radius: 8px;
            cursor: pointer;
"
  +:+ lit "            transition: transform 0.2s, box-shadow 0.2s;
        }
        button:hover { transform: translateY(-2px); box-shadow: 0 4px 12px rgba(0,0,0,0.3); }
        .start-btn {
            background: linear-gradient(135deg, #ffd700, #ff9500);
            color: #000;
            font-size: 1.3rem;
            padding: 0.8rem 2.5rem;
        }
        .reset-btn { background: #30363d; color: #e6edf3; }
        
        /* Timeline Visualization */
        .timeline-section {
            background: #161b22;
            border: 1px solid #30363d;
            border-radius: 12px;
            padding: 1rem;
            margin-bottom: 1rem;
        }
        .timeline-header {
            display: flex;
            justify-content: space-between;
            align-items: center;
            margin-bottom: 1rem;
        }
        .timeline-header h2 {
            font-family: 'MedievalSharp', cursive;
            font-size: 1.2rem;
            color: #58a6ff;
        }
        .timer {
            font-size: 1.5rem;
            font-weight: bold;
            color: #ffd700;
            font-variant-numeric: tabular-nums;
        }
        .timeline-grid {
            display: grid;
            grid-template-columns: 120px 1fr 80px;
            gap: 0.5rem;
"
  +:+ lit "            align-items: center;
        }
        .timeline-label {
            font-size: 0.75rem;
            color: #8b949e;
            text-align: right;
            padding-right: 0.5rem;
        }
        .timeline-track {
            height: 32px;
            background: #21262d;
            border-radius: 6px;
            position: relative;
            overflow: hidden;
        }
        .timeline-bar {
            height: 100%;
            border-radius: 6px;
            position: absolute;
            left: 0;
            top: 0;
            display: flex;
            align-items: center;
            padding-left: 8px;
            font-size: 0.7rem;
            font-weight: bold;
            color: #000;
            transition: width 0.1s linear;
            white-space: nowrap;
            overflow: hidden;
        }
        .timeline-time {
            font-size: 0.75rem;
            color: #8b949e;
            text-align: left;
            padding-left: 0.5rem;
            font-variant-numeric: tabular-nums;
        }
        
        /* Bar colors */
"
  +:+ lit "        .bar-server { background: linear-gradient(90deg, #58a6ff, #388bfd); }
        .bar-css { background: linear-gradient(90deg, #a371f7, #8957e5); }
        .bar-js { background: linear-gradient(90deg, #f0883e, #d18616); }
        .bar-body { background: linear-gradient(90deg, #3fb950, #238636); }
        .bar-waiting { background: repeating-linear-gradient(45deg, #30363d, #30363d 10px, #21262d 10px, #21262d 20px); }
        
        /* Phase indicators */
        .phase-row { margin-bottom: 0.25rem; }
        .phase-row:last-child { margin-bottom: 0; }
        
        /* Time markers */
        .time-markers {
            display: grid;
            grid-template-columns: 120px 1fr 80px;
            margin-top: 0.5rem;
            font-size: 0.65rem;
            color: #484f58;
        }
        .markers-track {
            display: flex;
            justify-content: space-between;
            padding: 0 4px;
        }
        
        /* Comparison panels */
        .comparison-panels {
            display: grid;
            grid-template-columns: 1fr 1fr;
            gap: 1rem;
            margin-bottom: 1rem;
        }
        .panel-box {
            border-radius: 12px;
            overflow: hidden;
        }
        .panel-header {
            padding: 0.5rem 1rem;
            font-weight: bold;
            text-align: center;
            font-size: 0.9rem;
"
  +:+ lit "        }
        .streaming-panel .panel-header {
            background: linear-gradient(135deg, #1a4d1a, #0d260d);
            color: #3fb950;
            border: 2px solid #3fb950;
            border-bottom: none;
        }
        .traditional-panel .panel-header {
            background: linear-gradient(135deg, #4d1a1a, #260d0d);
            color: #ff4444;
            border: 2px solid #ff4444;
            border-bottom: none;
        }
        .panel-content {
            background: #161b22;
            padding: 1rem;
            border: 2px solid #30363d;
            border-top: none;
            min-height: 180px;
        }
        .streaming-panel .panel-content { border-color: #3fb950; }
        .traditional-panel .panel-content { border-color: #ff4444; }
        
        /* Status indicators */
        .status-list { list-style: none; }
        .status-item {
            display: flex;
            align-items: center;
            gap: 0.5rem;
            padding: 0.4rem 0;
            font-size: 0.8rem;
            opacity: 0.4;
            transition: opacity 0.3s;
        }
        .status-item.active { opacity: 1; }
        .status-item.done { opacity: 1; }
        .status-icon {
            width: 20px;
            height: 20px;
            border-radius: 50%;
"
  +:+ lit "            display: flex;
            align-items: center;
            justify-content: center;
            font-size: 0.7rem;
            background: #30363d;
        }
        .status-item.active .status-icon { background: #58a6ff; animation: pulse 1s infinite; }
        .status-item.done .status-icon { background: #3fb950; }
        @keyframes pulse { 0%, 100% { transform: scale(1); } 50% { transform: scale(1.2); } }
        
        /* Results */
        .results-row {
            display: grid;
            grid-template-columns: 1fr 1fr;
            gap: 1rem;
            margin-top: 1rem;
        }
        .result-box {
            padding: 1rem;
            border-radius: 8px;
            text-align: center;
        }
        .result-streaming {
            background: rgba(63, 185, 80, 0.1);
            border: 2px solid #3fb950;
        }
        .result-traditional {
            background: rgba(255, 68, 68, 0.1);
            border: 2px solid #ff4444;
        }
        .result-time {
            font-size: 2rem;
            font-weight: bold;
            font-variant-numeric: tabular-nums;
        }
        .result-streaming .result-time { color: #3fb950; }
        .result-traditional .result-time { color: #ff4444; }
        .result-label { font-size: 0.75rem; color: #8b949e; margin-top: 0.25rem; }
        .result-saved {
            font-size: 1rem;
"
  +:+ lit "            color: #ffd700;
            margin-top: 0.5rem;
            font-weight: bold;
        }
        .hidden { display: none !important; }
        
        /* Legend */
        .legend {
            display: flex;
            flex-wrap: wrap;
            gap: 1rem;
            justify-content: center;
            margin-top: 0.75rem;
            padding-top: 0.75rem;
            border-top: 1px solid #30363d;
        }
        .legend-item {
            display: flex;
            align-items: center;
            gap: 0.4rem;
            font-size: 0.7rem;
            color: #8b949e;
        }
        .legend-color {
            width: 12px;
            height: 12px;
            border-radius: 3px;
        }
        
        /* Mobile Responsive */
        @media (max-width: 768px) {
            body { padding: 0.75rem; }
            h1 { font-size: 1.4rem; }
            .subtitle { font-size: 0.75rem; }
            .controls { gap: 0.5rem; flex-wrap: wrap; }
            .start-btn { font-size: 1rem; padding: 0.6rem 1.5rem; }
            .reset-btn { font-size: 0.9rem; padding: 0.5rem 1rem; }
            
            .timeline-section { padding: 0.75rem; }
            .timeline-header { flex-direction: column; gap: 0.5rem; align-items: flex-start; }
"
  +:+ lit "            .timeline-header h2 { font-size: 1rem; }
            .timer { font-size: 1.2rem; }
            
            .timeline-grid {
                grid-template-columns: 80px 1fr 50px;
                gap: 0.25rem;
            }
            .timeline-label { font-size: 0.65rem; padding-right: 0.25rem; }
            .timeline-track { height: 24px; }
            .timeline-bar { font-size: 0.6rem; padding-left: 4px; }
            .timeline-time { font-size: 0.65rem; padding-left: 0.25rem; }
            
            .time-markers { display: none; }
            
            .legend { gap: 0.5rem; margin-top: 0.5rem; padding-top: 0.5rem; }
            .legend-item { font-size: 0.6rem; gap: 0.25rem; }
            .legend-color { width: 10px; height: 10px; }
            
            .comparison-panels { grid-template-columns: 1fr; gap: 0.75rem; }
            .panel-header { font-size: 0.8rem; padding: 0.4rem 0.75rem; }
            .panel-content { padding: 0.75rem; min-height: auto; }
            .status-item { font-size: 0.7rem; padding: 0.3rem 0; }
            .status-icon { width: 16px; height: 16px; font-size: 0.6rem; }
            
            .results-row { grid-template-columns: 1fr 1fr; gap: 0.5rem; }
            .result-box { padding: 0.75rem; }
            .result-time { font-size: 1.5rem; }
            .result-label { font-size: 0.65rem; }
            .result-saved { font-size: 0.85rem; }
        }
        
        @media (max-width: 480px) {
            body { padding: 0.5rem; }
            h1 { font-size: 1.2rem; }
            .start-btn { width: 100%; }
            
            .timeline-grid {
                grid-template-columns: 60px 1fr 40px;
            }
            .timeline-label { font-size: 0.55rem; }
"
  +:+ lit "            .timeline-track { height: 20px; }
            .timeline-bar { font-size: 0.5rem; }
            .timeline-time { font-size: 0.55rem; }
            
            .legend { flex-direction: column; align-items: flex-start; }
            
            .results-row { grid-template-columns: 1fr; }
            .result-time { font-size: 1.3rem; }
        }
        /* Home Button */
        .home-btn {
            position: fixed;
            top: 1rem;
            left: 1rem;
            width: 44px;
            height: 44px;
            background: #161b22;
            border: 1px solid #30363d;
            border-radius: 8px;
            display: flex;
            align-items: center;
            justify-content: center;
            text-decoration: none;
            color: #e6edf3;
            font-size: 1.25rem;
            transition: background 0.2s, transform 0.2s, box-shadow 0.2s;
            z-index: 1000;
        }
        .home-btn:hover {
            background: #30363d;
            transform: translateY(-2px);
            box-shadow: 0 4px 12px rgba(0,0,0,0.3);
        }
        @media (max-width: 480px) {
            .home-btn { width: 38px; height: 38px; top: 0.5rem; left: 0.5rem; font-size: 1rem; }
        }
    </style>
</head>
<body>
    <a href=^/^ class=^home-btn^ title=^Home^>🏠</a>
"
  +:+ lit "    <h1>⚡ Streaming vs Traditional Race</h1>
    <p class=^subtitle^>Watch how streaming enables parallel loading</p>
    
    <div class=^controls^>
        <button class=^start-btn^ onclick=^startRace()^>🏁 Start Race!</button>
        <button class=^reset-btn^ onclick=^resetRace()^>🔄 Reset</button>
    </div>
    
    <!-- Visual Timeline -->
    <div class=^timeline-section^>
        <div class=^timeline-header^>
            <h2>📊 Live Waterfall Timeline</h2>
            <div class=^timer^ id=^global-timer^>0ms</div>
        </div>
        
        <!-- Streaming Timeline -->
        <div style=^margin-bottom: 1.5rem;^>
            <div style=^color: #3fb950; font-weight: bold; margin-bottom: 0.5rem; font-size: 0.85rem;^>✅ STREAMING (Parallel Loading)</div>
            <div class=^timeline-grid phase-row^>
                <div class=^timeline-label^>🧙 Server Work</div>
                <div class=^timeline-track^>
                    <div class=^timeline-bar bar-server^ id=^stream-server^ style=^width: 0%;^>Fetching data...</div>
                </div>
                <div class=^timeline-time^ id=^stream-server-time^>-</div>
            </div>
            <div class=^timeline-grid phase-row^>
                <div class=^timeline-label^>🎨 CSS Download</div>
                <div class=^timeline-track^>
                    <div class=^timeline-bar bar-css^ id=^stream-css^ style=^width: 0%;^>Loading styles...</div>
                </div>
                <div class=^timeline-time^ id=^stream-css-time^>-</div>
            </div>
            <div class=^timeline-grid phase-row^>
                <div class=^timeline-label^>⚡ JS Download</div>
                <div class=^timeline-track^>
                    <div class=^timeline-bar bar-js^ id=^stream-js^ style=^width: 0%;^>Loading scripts...</div>
                </div>
                <div class=^timeline-time^ id=^stream-js-time^>-</div>
            </div>
            <div class=^timeline-grid phase-row^>
"
  +:+ lit "                <div class=^timeline-label^>💰 Body Render</div>
                <div class=^timeline-track^>
                    <div class=^timeline-bar bar-body^ id=^stream-body^ style=^width: 0%;^>Rendering content...</div>
                </div>
                <div class=^timeline-time^ id=^stream-body-time^>-</div>
            </div>
        </div>
        
        <!-- Traditional Timeline -->
        <div>
            <div style=^color: #ff4444; font-weight: bold; margin-bottom: 0.5rem; font-size: 0.85rem;^>❌ TRADITIONAL (Sequential Loading)</div>
            <div class=^timeline-grid phase-row^>
                <div class=^timeline-label^>⏳ Server Wait</div>
                <div class=^timeline-track^>
                    <div class=^timeline-bar bar-waiting^ id=^trad-wait^ style=^width: 0%;^>Waiting for response...</div>
                </div>
                <div class=^timeline-time^ id=^trad-wait-time^>-</div>
            </div>
            <div class=^timeline-grid phase-row^>
                <div class=^timeline-label^>🎨 CSS Download</div>
                <div class=^timeline-track^>
                    <div class=^timeline-bar bar-css^ id=^trad-css^ style=^width: 0%;^>Loading styles...</div>
                </div>
                <div class=^timeline-time^ id=^trad-css-time^>-</div>
            </div>
            <div class=^timeline-grid phase-row^>
                <div class=^timeline-label^>⚡ JS Download</div>
                <div class=^timeline-track^>
                    <div class=^timeline-bar bar-js^ id=^trad-js^ style=^width: 0%;^>Loading scripts...</div>
                </div>
                <div class=^timeline-time^ id=^trad-js-time^>-</div>
            </div>
            <div class=^timeline-grid phase-row^>
                <div class=^timeline-label^>💰 Body Render</div>
                <div class=^timeline-track^>
                    <div class=^timeline-bar bar-body^ id=^trad-body^ style=^width: 0%;^>Rendering content...</div>
                </div>
                <div class=^timeline-time^ id=^trad-body-time^>-</div>
            </div>
        </div>
"
  +:+ lit "        
        <!-- Time scale markers -->
        <div class=^time-markers^>
            <div></div>
            <div class=^markers-track^>
                <span>0s</span>
                <span>0.5s</span>
                <span>1s</span>
                <span>1.5s</span>
                <span>2s</span>
                <span>2.5s</span>
                <span>3s</span>
            </div>
            <div></div>
        </div>
        
        <div class=^legend^>
            <div class=^legend-item^><div class=^legend-color bar-server^></div> Server processing</div>
            <div class=^legend-item^><div class=^legend-color bar-css^></div> CSS download</div>
            <div class=^legend-item^><div class=^legend-color bar-js^></div> JS download</div>
            <div class=^legend-item^><div class=^legend-color bar-body^></div> Body rendered</div>
            <div class=^legend-item^><div class=^legend-color bar-waiting^></div> Browser waiting</div>
        </div>
    </div>
    
    <!-- Results -->
    <div class=^results-row hidden^ id=^results^>
        <div class=^result-box result-streaming^>
            <div class=^result-time^ id=^result-stream^>--</div>
            <div class=^result-label^>Streaming Total</div>
        </div>
        <div class=^result-box result-traditional^>
            <div class=^result-time^ id=^result-trad^>--</div>
            <div class=^result-label^>Traditional Total</div>
        </div>
    </div>
    <div class=^result-saved hidden^ id=^time-saved^ style=^text-align: center; margin-top: 0.5rem;^></div>
    
    <!-- Status Panels -->
    <div class=^comparison-panels^>
"
  +:+ lit "        <div class=^panel-box streaming-panel^>
            <div class=^panel-header^>✅ Streaming Status</div>
            <div class=^panel-content^>
                <ul class=^status-list^ id=^stream-status^>
                    <li class=^status-item^ id=^s1^><span class=^status-icon^>1</span> Request sent to server</li>
                    <li class=^status-item^ id=^s2^><span class=^status-icon^>2</span> &lt;head&gt; received instantly!</li>
                    <li class=^status-item^ id=^s3^><span class=^status-icon^>3</span> CSS/JS downloading (parallel)</li>
                    <li class=^status-item^ id=^s4^><span class=^status-icon^>4</span> Server still fetching data...</li>
                    <li class=^status-item^ id=^s5^><span class=^status-icon^>5</span> Assets ready! (while waiting)</li>
                    <li class=^status-item^ id=^s6^><span class=^status-icon^>6</span> &lt;body&gt; received & rendered</li>
                </ul>
            </div>
        </div>
        <div class=^panel-box traditional-panel^>
            <div class=^panel-header^>❌ Traditional Status</div>
            <div class=^panel-content^>
                <ul class=^status-list^ id=^trad-status^>
                    <li class=^status-item^ id=^t1^><span class=^status-icon^>1</span> Request sent to server</li>
                    <li class=^status-item^ id=^t2^><span class=^status-icon^>2</span> Waiting for server... ⏳</li>
                    <li class=^status-item^ id=^t3^><span class=^status-icon^>3</span> Still waiting...</li>
                    <li class=^status-item^ id=^t4^><span class=^status-icon^>4</span> HTML finally received!</li>
                    <li class=^status-item^ id=^t5^><span class=^status-icon^>5</span> NOW downloading CSS/JS</li>
                    <li class=^status-item^ id=^t6^><span class=^status-icon^>6</span> Assets ready, rendering...</li>
                </ul>
            </div>
        </div>
    </div>

    <script>
        const CONFIG = { serverDelay: 2000, assetDelay: 800, maxTime: 3000 };
        let raceInterval = null;
        let startTime = null;
        
        function startRace() {
            resetRace();
            startTime = performance.now();
            
            // Start the global timer
            raceInterval = setInterval(updateTimer, 50);
            
"
  +:+ lit "            // Simulate streaming timeline
            simulateStreaming();
            
            // Simulate traditional timeline
            simulateTraditional();
        }
        
        function updateTimer() {
            const elapsed = performance.now() - startTime;
            document.getElementById('global-timer').textContent = Math.floor(elapsed) + 'ms';
            
            if (elapsed > CONFIG.maxTime + 500) {
                clearInterval(raceInterval);
            }
        }
        
        function simulateStreaming() {
            const t = startTime;
            
            // Step 1: Request sent (instant)
            setStatus('s1', 'active');
            
            // Step 2: <head> received instantly (50ms simulated network)
            setTimeout(() => {
                setStatus('s1', 'done');
                setStatus('s2', 'done');
                setStatus('s3', 'active');
                setStatus('s4', 'active');
                
                // Start CSS bar immediately
                animateBar('stream-css', 0, CONFIG.assetDelay, 'stream-css-time');
                // Start JS bar immediately  
                animateBar('stream-js', 0, CONFIG.assetDelay, 'stream-js-time');
                // Server bar runs for full duration
                animateBar('stream-server', 0, CONFIG.serverDelay, 'stream-server-time');
            }, 50);
            
            // Step 5: Assets ready (after ~800ms)
            setTimeout(() => {
                setStatus('s3', 'done');
"
  +:+ lit "                setStatus('s5', 'done');
            }, 50 + CONFIG.assetDelay);
            
            // Step 6: Body received (after ~2000ms server delay)
            setTimeout(() => {
                setStatus('s4', 'done');
                setStatus('s6', 'done');
                animateBar('stream-body', 0, 100, 'stream-body-time');
                
                const total = Math.floor(performance.now() - startTime);
                document.getElementById('result-stream').textContent = total + 'ms';
                checkRaceComplete();
            }, 50 + CONFIG.serverDelay);
        }
        
        function simulateTraditional() {
            // Step 1: Request sent
            setStatus('t1', 'active');
            
            // Start the waiting bar immediately
            animateBar('trad-wait', 0, CONFIG.serverDelay, 'trad-wait-time');
            
            setTimeout(() => {
                setStatus('t1', 'done');
                setStatus('t2', 'active');
            }, 100);
            
            setTimeout(() => {
                setStatus('t2', 'done');
                setStatus('t3', 'active');
            }, CONFIG.serverDelay / 2);
            
            // Step 4: HTML received after server delay
            setTimeout(() => {
                setStatus('t3', 'done');
                setStatus('t4', 'done');
                setStatus('t5', 'active');
                
                // NOW start downloading CSS/JS (sequential!)
                animateBar('trad-css', CONFIG.serverDelay, CONFIG.assetDelay, 'trad-css-time');
"
  +:+ lit "                animateBar('trad-js', CONFIG.serverDelay, CONFIG.assetDelay, 'trad-js-time');
            }, CONFIG.serverDelay);
            
            // Step 6: Assets ready (after server + asset delay)
            setTimeout(() => {
                setStatus('t5', 'done');
                setStatus('t6', 'done');
                animateBar('trad-body', CONFIG.serverDelay + CONFIG.assetDelay, 100, 'trad-body-time');
                
                const total = Math.floor(performance.now() - startTime);
                document.getElementById('result-trad').textContent = total + 'ms';
                checkRaceComplete();
            }, CONFIG.serverDelay + CONFIG.assetDelay);
        }
        
        function animateBar(barId, startOffset, duration, timeId) {
            const bar = document.getElementById(barId);
            const timeEl = document.getElementById(timeId);
            const startMs = performance.now();
            const startPct = (startOffset / CONFIG.maxTime) * 100;
            const endPct = ((startOffset + duration) / CONFIG.maxTime) * 100;
            
            bar.style.left = startPct + '%';
            bar.style.width = '0%';
            
            function animate() {
                const elapsed = performance.now() - startMs;
                const progress = Math.min(elapsed / duration, 1);
                const width = (endPct - startPct) * progress;
                
                bar.style.width = width + '%';
                
                if (progress < 1) {
                    requestAnimationFrame(animate);
                } else {
                    timeEl.textContent = Math.floor(startOffset + duration) + 'ms';
                }
            }
            
            requestAnimationFrame(animate);
"
  +:+ lit "        }
        
        function setStatus(id, state) {
            const el = document.getElementById(id);
            el.classList.remove('active', 'done');
            if (state) el.classList.add(state);
        }
        
        let streamDone = false, tradDone = false;
        function checkRaceComplete() {
            const streamResult = document.getElementById('result-stream').textContent;
            const tradResult = document.getElementById('result-trad').textContent;
            
            if (streamResult !== '--') streamDone = true;
            if (tradResult !== '--') tradDone = true;
            
            if (streamDone && tradDone) {
                document.getElementById('results').classList.remove('hidden');
                
                const streamMs = parseInt(streamResult);
                const tradMs = parseInt(tradResult);
                const saved = tradMs - streamMs;
                
                document.getElementById('time-saved').classList.remove('hidden');
                document.getElementById('time-saved').innerHTML = 
                    '🏆 <span style=^color:#3fb950^>Streaming saved ~' + saved + 'ms</span> by loading assets in parallel!';
            }
        }
        
        function resetRace() {
            clearInterval(raceInterval);
            startTime = null;
            streamDone = false;
            tradDone = false;
            
            document.getElementById('global-timer').textContent = '0ms';
            document.getElementById('results').classList.add('hidden');
            document.getElementById('time-saved').classList.add('hidden');
            document.getElementById('result-stream').textContent = '--';
            document.getElementById('result-trad').textContent = '--';
"
  +:+ lit "            
            // Reset all bars
            ['stream-server', 'stream-css', 'stream-js', 'stream-body',
             'trad-wait', 'trad-css', 'trad-js', 'trad-body'].forEach(id => {
                const bar = document.getElementById(id);
                bar.style.width = '0%';
                bar.style.left = '0%';
            });
            
            // Reset all times
            ['stream-server-time', 'stream-css-time', 'stream-js-time', 'stream-body-time',
             'trad-wait-time', 'trad-css-time', 'trad-js-time', 'trad-body-time'].forEach(id => {
                document.getElementById(id).textContent = '-';
            });
            
            // Reset all status items
            ['s1','s2','s3','s4','s5','s6','t1','t2','t3','t4','t5','t6'].forEach(id => {
                setStatus(id, null);
            });
        }
    </script>
    
    <footer style=^margin-top: 1.5rem; padding: 1rem; text-align: center; font-size: 0.7rem; color: #484f58; border-top: 1px solid #30363d;^>
        For demonstration and educational purposes only. 
        <a href=^https://github.com/DavidJKTofan/cf-head-html-streaming-performance^ target=^_blank^ style=^color: #58a6ff; text-decoration: none;^>View on GitHub</a>
    </footer>
</body>
</html>".

(** The argument of [Response.json]: strings, numbers and objects, the
    members of an object in the order they are written. *)
Inductive Json :=
  | JsonString (text : string)
  | JsonNumber (n : Z)
  | JsonObject (members : list JsonMember)
with JsonMember :=
  | Member (name : string) (value : Json).

(** What the platform gives the router: the [pathname] of
    [new URL(request.url)], the constructor throwing on a string that is
    not a URL; the answer of the static assets binding to a request; and
    [JSON.stringify]. *)
Class Platform (S : Type) := {
  pathnameOf : string -> Completion string;
  assetsFetch : nat -> Request -> S -> Completion Response * S;
  jsonStringify : Json -> string;
}.

(** [Response.json(data)]: the body is the JSON text, the status is 200
    and the content type is [application/json]. *)
Definition responseJson {S : Type} `{Platform S} (data : Json) : Response :=
  newResponse (TextBody (jsonStringify data))
    {| initStatus := None;
       initHeaders := {[ "content-type" := "application/json" ]} |}.

(** What [fetch] resolves to, with the promise handed to [ctx.waitUntil]
    on the way, if any. *)
Record Routed (S : Type) := {
  reply : Response;
  background : option (World S -> Settlement * World S);
}.
Arguments reply {S} _.
Arguments background {S} _.

Section Router.
Context {S : Type} `{NumberFormat} `{Host S} `{Platform S}.

(** [await env.ASSETS.fetch(request)], as the promise that [fetch]
    returns is resolved with. *)
Definition assets_fetch (fetcher : nat) (request : Request) : Task S Response :=
  fun w =>
    let (c, s1) := assetsFetch fetcher request (store w) in
    (c, {| store := s1; journal := journal w |}).

Definition new_URL_pathname (request : Request) : Task S string :=
  fun w => (pathnameOf (url request), w).

Definition configJson : Json :=
  JsonObject
    [ Member "quest" (JsonString "The Great Streaming Quest");
      Member "config"
        (JsonObject
           [ Member "dungeonDelayMs"
               (JsonNumber (dungeonDelayMs DEFAULT_QUEST_CONFIG));
             Member "armorDownloadMs"
               (JsonNumber (armorDownloadMs DEFAULT_QUEST_CONFIG)) ]);
      Member "metaphor"
        (JsonObject
           [ Member "hero" (JsonString "Browser");
             Member "questGiver" (JsonString "Server/Worker");
             Member "map" (JsonString "<head> tag");
             Member "heavyArmor" (JsonString "CSS/JS/Fonts");
             Member "dungeon" (JsonString "Database/API");
             Member "treasure" (JsonString "<body> data") ]) ].

(** The [fetch] handler of the Worker.  The two quest handlers are called
    without a config. *)
Definition fetch (ts : TransformStream S) (request : Request) (env : Env)
  : Task S (Routed S) :=
  path <- new_URL_pathname request ;;
  console_log ("[Router] " +:+ method request +:+ " " +:+ path) ;;
  if String.eqb path "/quest" then
    let r := handleStreamQuest ts request env None in
    ret {| reply := response r; background := Some (waitUntil r) |}
  else if String.eqb path "/quest/no-stream" then
    r <- handleNoStreamQuest request env None ;;
    ret {| reply := r; background := None |}
  else if String.eqb path "/compare" then
    ret {| reply :=
             newResponse (TextBody getComparisonHTML)
               {| initStatus := None;
                  initHeaders :=
                    {[ "Content-Type" := "text/html; charset=utf-8" ]} |};
           background := None |}
  else if String.eqb path "/api/config" then
    ret {| reply := responseJson configJson; background := None |}
  else
    match ASSETS env with
    | Some fetcher =>
        r <- assets_fetch fetcher request ;;
        ret {| reply := r; background := None |}
    | None =>
        ret {| reply :=
                 newResponse (TextBody "Not Found")
                   {| initStatus := Some 404; initHeaders := ∅ |};
               background := None |}
    end.

End Router.

(** The paths the router answers itself. *)
Definition routes : list string :=
  [ "/quest"; "/quest/no-stream"; "/compare"; "/api/config" ].

(** A pathname reader for URLs of the form [scheme://host/path?query#hash]
    that throws on a string without [://], an assets binding that
    answers every request with the landing page, and a JSON printer that
    is not looked at, to evaluate the router on concrete requests. *)
Fixpoint hasScheme (s : string) : bool :=
  match s with
  | String ":" (String "/" (String "/" _)) => true
  | String _ r => hasScheme r
  | EmptyString => false
  end.

Fixpoint afterScheme (s : string) : string :=
  match s with
  | String ":" (String "/" (String "/" r)) => r
  | String _ r => afterScheme r
  | EmptyString => EmptyString
  end.

Fixpoint fromFirstSlash (s : string) : string :=
  match s with
  | EmptyString => "/"
  | String "/" _ => s
  | String _ r => fromFirstSlash r
  end.

Fixpoint untilQuery (s : string) : string :=
  match s with
  | EmptyString => EmptyString
  | String c r =>
      if (Ascii.eqb c "?" || Ascii.eqb c "#")%bool then EmptyString
      else String c (untilQuery r)
  end.

Definition samplePathname (u : string) : string :=
  untilQuery (fromFirstSlash (afterScheme u)).

Definition landingPage : Response :=
  newResponse (TextBody "<!DOCTYPE html><title>Home</title>")
    {| initStatus := None;
       initHeaders := {[ "Content-Type" := "text/html; charset=utf-8" ]} |}.

#[export] Instance isolatePlatform : Platform Isolate :=
  {| pathnameOf := fun u =>
       if hasScheme u then Normal (samplePathname u)
       else Thrown (ErrorObject "Invalid URL");
     assetsFetch := fun _ _ st => (Normal landingPage, st);
     jsonStringify := fun _ => "{}" |}.

(** ** js/quest.js: the quest logger of the streamed page *)

Module QuestLogger.

(** The numbers of the script are readings of [performance.now()] and
    what is computed from them.  [numTruthy] is the test that [!] and
    [||] make, false on zero and on NaN; [toFixed0 n] is [n.toFixed(0)];
    [numToString n] is the interpolation [${n}]. *)
Class JsNumber (Num : Type) := {
  numSub : Num -> Num -> Num;
  numAdd : Num -> Num -> Num;
  numZero : Num;
  numTruthy : Num -> bool;
  toFixed0 : Num -> string;
  numToString : Num -> string;
}.

(** [s.padStart(targetLength, ' ')] on a string of ASCII characters. *)
Fixpoint spaces (n : nat) : string :=
  match n with
  | O => EmptyString
  | Datatypes.S k => String " " (spaces k)
  end.

Definition padStart (targetLength : nat) (s : string) : string :=
  spaces (targetLength - String.length s) +:+ s.

(** The [div] elements appended to the quest log. *)
Record LogEntry := {
  className : string;
  innerHTML : string;
}.

Section Script.
Context {Num : Type} `{JsNumber Num}.

Record QuestState := {
  startTime : Num;
  armorEquippedTime : option Num;
  treasureReceivedTime : option Num;
  cssLoaded : bool;
  jsLoaded : bool;
}.

(** The page as the script sees it: its own state, the successive
    readings of [performance.now()], the children of [#quest-entries],
    the class list of [#loading-indicator], the text of the three
    statistics elements (each [None] when the element is not in the
    document), and the calls of [console.warn]. *)
Record Browser := {
  questState : QuestState;
  timeline : nat -> Num;
  reads : nat;
  questEntries : option (list LogEntry);
  loadingIndicator : option (list string);
  totalTimeEl : option string;
  armorTimeEl : option string;
  timeSavedEl : option string;
  warnings : list (string * string);
}.

Definition setState (q : QuestState) (b : Browser) : Browser :=
  {| questState := q; timeline := timeline b; reads := reads b;
     questEntries := questEntries b; loadingIndicator := loadingIndicator b;
     totalTimeEl := totalTimeEl b; armorTimeEl := armorTimeEl b;
     timeSavedEl := timeSavedEl b; warnings := warnings b |}.

Definition performanceNow (b : Browser) : Num * Browser :=
  (timeline b (reads b),
   {| questState := questState b; timeline := timeline b;
      reads := Datatypes.S (reads b);
      questEntries := questEntries b; loadingIndicator := loadingIndicator b;
      totalTimeEl := totalTimeEl b; armorTimeEl := armorTimeEl b;
      timeSavedEl := timeSavedEl b; warnings := warnings b |}).

Definition getElapsedTime (b : Browser) : Num * Browser :=
  let (now, b1) := performanceNow b in
  (numSub now (startTime (questState b1)), b1).

Definition formatTimestamp (ms : Num) : string :=
  padStart 4 (toFixed0 ms).

Definition logToQuest (actor message actorType : string) (b : Browser)
  : Browser :=
  match questEntries b with
  | None =>
      {| questState := questState b; timeline := timeline b; reads := reads b;
         questEntries := None; loadingIndicator := loadingIndicator b;
         totalTimeEl := totalTimeEl b; armorTimeEl := armorTimeEl b;
         timeSavedEl := timeSavedEl b;
         warnings :=
           warnings b
             ++ [("[Quest] Log container not found, queuing message:",
                  message)] |}
  | Some entries =>
      let (ms, b1) := getElapsedTime b in
      let elapsed := formatTimestamp ms in
      let entry :=
        {| className := "log-entry";
           innerHTML :=
             lit "
            <span class=^timestamp^>["
       +:+ elapsed
       +:+ lit "ms]</span>
            <span class=^actor "
       +:+ actorType
       +:+ lit "^>"
       +:+ actor
       +:+ lit ":</span>
            <span class=^message^>"
       +:+ message
       +:+ "</span>
        " |} in
      {| questState := questState b1; timeline := timeline b1;
         reads := reads b1;
         questEntries := Some (entries ++ [entry]);
         loadingIndicator := loadingIndicator b1;
         totalTimeEl := totalTimeEl b1; armorTimeEl := armorTimeEl b1;
         timeSavedEl := timeSavedEl b1; warnings := warnings b1 |}
  end.

Definition armorMessage (t : Num) : string :=
  "🛡️ Heavy Armor fully equipped! (CSS + JS downloaded in " +:+ toFixed0 t +:+ "ms). Ready and waiting for the Treasure!".

Definition checkArmorEquipped (b : Browser) : Browser :=
  let q := questState b in
  if (cssLoaded q && jsLoaded q
      && negb (match armorEquippedTime q with
               | Some t => numTruthy t
               | None => false
               end))%bool
  then
    let (t, b1) := getElapsedTime b in
    let q1 := questState b1 in
    let b2 :=
      setState {| startTime := startTime q1; armorEquippedTime := Some t;
                  treasureReceivedTime := treasureReceivedTime q1;
                  cssLoaded := cssLoaded q1; jsLoaded := jsLoaded q1 |} b1 in
    logToQuest "🦸 Hero" (armorMessage t) "hero" b2
  else b.

Definition onCssLoaded (b : Browser) : Browser :=
  let q := questState b in
  checkArmorEquipped
    (setState {| startTime := startTime q;
                 armorEquippedTime := armorEquippedTime q;
                 treasureReceivedTime := treasureReceivedTime q;
                 cssLoaded := true; jsLoaded := jsLoaded q |} b).

Definition onJsLoaded (b : Browser) : Browser :=
  let q := questState b in
  checkArmorEquipped
    (setState {| startTime := startTime q;
                 armorEquippedTime := armorEquippedTime q;
                 treasureReceivedTime := treasureReceivedTime q;
                 cssLoaded := cssLoaded q; jsLoaded := true |} b).

(** [classList.add(token)]. *)
Definition classListAdd (token : string) (classes : list string) : list string :=
  if existsb (String.eqb token) classes then classes else classes ++ [token].

Definition onTreasureReceived (b : Browser) : Browser :=
  let (t, b1) := getElapsedTime b in
  let q1 := questState b1 in
  let b2 :=
    {| questState :=
         {| startTime := startTime q1;
            armorEquippedTime := armorEquippedTime q1;
            treasureReceivedTime := Some t;
            cssLoaded := cssLoaded q1; jsLoaded := jsLoaded q1 |};
       timeline := timeline b1; reads := reads b1;
       questEntries := questEntries b1;
       loadingIndicator := option_map (classListAdd "hidden") (loadingIndicator b1);
       totalTimeEl := totalTimeEl b1; armorTimeEl := armorTimeEl b1;
       timeSavedEl := timeSavedEl b1; warnings := warnings b1 |} in
  logToQuest "🧙 Quest Giver" "🏆 I have returned from the Dungeon! The Treasure (&lt;body&gt; data) is being delivered!" "server" b2.

(** [questState.armorEquippedTime || 0]. *)
Definition armorTimeOrZero (q : QuestState) : Num :=
  match armorEquippedTime q with
  | Some t => if numTruthy t then t else numZero
  | None => numZero
  end.

Definition showFinalStats (dungeonDelayMs : Num) (b : Browser) : Browser :=
  let (totalTime, b1) := getElapsedTime b in
  let armorTime := armorTimeOrZero (questState b1) in
  let timeSaved := armorTime in
  let b2 :=
    {| questState := questState b1; timeline := timeline b1; reads := reads b1;
       questEntries := questEntries b1; loadingIndicator := loadingIndicator b1;
       totalTimeEl :=
         option_map (fun _ => toFixed0 totalTime +:+ "ms") (totalTimeEl b1);
       armorTimeEl :=
         option_map (fun _ => toFixed0 armorTime +:+ "ms") (armorTimeEl b1);
       timeSavedEl :=
         option_map (fun _ => "~" +:+ toFixed0 timeSaved +:+ "ms") (timeSavedEl b1);
       warnings := warnings b1 |} in
  let b3 :=
    logToQuest "🦸 Hero"
      ("💰 Treasure received and rendered! Quest complete in " +:+ toFixed0 totalTime +:+ "ms!") "hero" b2 in
  let wouldHaveTaken := numAdd dungeonDelayMs armorTime in
  logToQuest "📊 System"
    ("<strong>STREAMING BENEFIT:</strong> The Hero equipped Heavy Armor (" +:+ toFixed0 armorTime
     +:+ "ms) WHILE the Quest Giver was in the Dungeon (" +:+ numToString dungeonDelayMs
     +:+ "ms). Without streaming, total time would be ~" +:+ toFixed0 wouldHaveTaken
     +:+ "ms. We saved ~" +:+ toFixed0 timeSaved +:+ "ms!")
    "system" b3.

(** The script when it is loaded: the state is created with the first
    reading of the clock. *)
Definition load (clock : nat -> Num)
  (entries : option (list LogEntry)) (indicator : option (list string))
  (total armor saved : option string) : Browser :=
  {| questState :=
       {| startTime := clock O; armorEquippedTime := None;
          treasureReceivedTime := None; cssLoaded := false; jsLoaded := false |};
     timeline := clock; reads := 1%nat;
     questEntries := entries; loadingIndicator := indicator;
     totalTimeEl := total; armorTimeEl := armor; timeSavedEl := saved;
     warnings := [] |}.

(** The calls the page makes on [window.QuestLogger]: the [onload] of
    each of the two stylesheets calls [onCssLoaded], the script's own
    timer calls [onJsLoaded], the streamed body calls
    [onTreasureReceived] and [showFinalStats], and the inline scripts
    call [log]. *)
Inductive Call :=
  | CssLoaded
  | JsLoaded
  | TreasureReceived
  | FinalStats (dungeonDelayMs : Num)
  | Log (actor message actorType : string).

Definition call (c : Call) (b : Browser) : Browser :=
  match c with
  | CssLoaded => onCssLoaded b
  | JsLoaded => onJsLoaded b
  | TreasureReceived => onTreasureReceived b
  | FinalStats d => showFinalStats d b
  | Log actor message actorType => logToQuest actor message actorType b
  end.

Definition calls (cs : list Call) (b : Browser) : Browser :=
  fold_left (fun b c => call c b) cs b.

(** The markup that [logToQuest] gives an entry. *)
Definition entryMarkup (elapsed actorType actor message : string) : string :=
  lit "
            <span class=^timestamp^>["
  +:+ elapsed
  +:+ lit "ms]</span>
            <span class=^actor "
  +:+ actorType
  +:+ lit "^>"
  +:+ actor
  +:+ lit ":</span>
            <span class=^message^>"
  +:+ message
  +:+ "</span>
        ".

(** The entry of the armor message, logged at the reading [ms] for the
    armor time [t]. *)
Definition armorEntry (ms t : Num) : LogEntry :=
  {| className := "log-entry";
     innerHTML :=
       entryMarkup (formatTimestamp ms) "hero" "🦸 Hero" (armorMessage t) |}.

(** The calls that report a loaded asset. *)
Definition isLoadCall (c : Call) : Prop :=
  c = CssLoaded \/ c = JsLoaded.

(** The readings of the clock that the script has not taken yet are all
    truthy once the start time is taken off. *)
Definition elapsedTruthy (b : Browser) : Prop :=
  forall n, (reads b <= n)%nat ->
    numTruthy (numSub (timeline b n) (startTime (questState b))) = true.

End Script.

Arguments QuestState Num : clear implicits.
Arguments Browser Num : clear implicits.
Arguments Call Num : clear implicits.

(** Whole milliseconds, to evaluate the script on concrete pages. *)
#[export] Instance wholeMilliseconds : JsNumber Z :=
  {| numSub := Z.sub; numAdd := Z.add; numZero := 0;
     numTruthy := fun n => negb (n =? 0);
     toFixed0 := pretty; numToString := pretty |}.

End QuestLogger.

(** * Properties *)

(** ** Every run has one of the four shapes *)

Ltac settle_next :=
  match goal with
  | |- context [write ?w ?c ?s] =>
      destruct (write w c s) as [[|?] ?] eqn:?
  | |- context [close ?w ?s] =>
      destruct (close w s) as [[|?] ?] eqn:?
  | delay : Z -> _ -> Settlement * _ |- context [?d ?c ?s] =>
      constr_eq d delay; destruct (delay c s) as [[|?] ?] eqn:?
  end.

Ltac run_routine :=
  unfold runJournal, runSettlement, async, streamQuestContentWith,
    tryCatchFinally, bind, await, console_log, console_error, start;
  cbn [store journal app];
  repeat (settle_next; cbn [store journal app fst snd]).

Section RunShape.
Context {S : Type} `{NumberFormat}.
Variable delay : Z -> S -> Settlement * S.
Variable writer : StreamWriter S.
Variable config : QuestConfig.

Lemma run_shape (s : S) :
  PhasedRun config
    (runJournal (streamQuestContentWith delay writer config) s)
    (runSettlement (streamQuestContentWith delay writer config) s).
Proof.
  run_routine; constructor.
Qed.

(** C3. On every run of the streaming routine, whatever the head write,
    the delay, the body write, the error write and the close do: the
    writer's close is invoked exactly once, as the last step of the run;
    the steps before it were performed on the writer and the delay in
    the order journalled, the close is called on the store they left,
    it settles as journalled, and the store of the run is the store the
    close leaves. *)
Theorem close_exactly_once_and_last (s : S) :
  let w := snd (async (streamQuestContentWith delay writer config) (start s)) in
  let j := runJournal (streamQuestContentWith delay writer config) s in
  closeCount j = 1%nat
  /\ (exists rc, last j = Some (WriterClose, rc))
  /\ exists s_pre,
       performed delay writer (removelast j) s s_pre
       /\ last j = Some (WriterClose, fst (close writer s_pre))
       /\ store w = snd (close writer s_pre).
Proof.
  intros w j. subst w j.
  split; [|split].
  - destruct (run_shape s); reflexivity.
  - destruct (run_shape s); eexists; reflexivity.
  - run_routine; eexists;
      (split;
       [ cbn [removelast performed act fst snd];
         repeat (match goal with
                 | Hx : _ = (_, _) |- _ => rewrite Hx
                 end; cbn [fst snd]);
         repeat split; reflexivity
       | cbn [fst snd last];
         match goal with
         | Hx : close writer _ = (_, _) |- _ => rewrite Hx
         end;
         split; reflexivity ]).
Qed.

(** C4. The operations issued against the writer start with the write of
    the head chunk, end with the close, and have only body or error
    chunk writes in between: no body or error chunk is written before
    the head chunk, and the close comes after the last content chunk. *)
Theorem head_first_close_last (s : S) :
  exists middle,
    writerOperations (runJournal (streamQuestContentWith delay writer config) s)
      = WriterWrite (headChunk config) :: middle ++ [WriterClose]
    /\ Forall (isBodyOrError config) middle.
Proof.
  destruct (run_shape s) as [rc|e r rc|e r rc|e r rc].
  - exists [WriterWrite (bodyChunk config)]. split; [reflexivity|].
    repeat constructor.
  - exists [WriterWrite (errorChunk e)]. split; [reflexivity|].
    constructor; [right; eexists; reflexivity | constructor].
  - exists [WriterWrite (errorChunk e)]. split; [reflexivity|].
    constructor; [right; eexists; reflexivity | constructor].
  - exists [WriterWrite (bodyChunk config); WriterWrite (errorChunk e)].
    split; [reflexivity|].
    constructor; [left; reflexivity|].
    constructor; [right; eexists; reflexivity | constructor].
Qed.

End RunShape.

(** ** Chunks are told apart by their first bytes *)

Lemma append_assoc (a b c : string) : (a +:+ b) +:+ c = a +:+ (b +:+ c).
Proof.
  induction a as [|x a IH]; [reflexivity|].
  change (String x ((a +:+ b) +:+ c) = String x (a +:+ (b +:+ c))).
  rewrite IH. reflexivity.
Qed.

Section Chunks.
Context `{NumberFormat}.

Lemma headChunk_not_errorChunk (config : QuestConfig) (cause : JsValue) :
  headChunk config <> errorChunk cause.
Proof.
  intros Heq. apply (f_equal (fun l => l !! 1%nat)) in Heq.
  lazy in Heq. discriminate Heq.
Qed.

Lemma bodyChunk_not_errorChunk (config : QuestConfig) (cause : JsValue) :
  bodyChunk config <> errorChunk cause.
Proof.
  intros Heq. apply (f_equal (fun l => l !! 0%nat)) in Heq.
  lazy in Heq. discriminate Heq.
Qed.

Lemma headChunk_depends_on_delay_only (c1 c2 : QuestConfig) :
  dungeonDelayMs c1 = dungeonDelayMs c2 -> headChunk c1 = headChunk c2.
Proof.
  intros Hd. unfold headChunk, generateHeadChunk. rewrite Hd. reflexivity.
Qed.

Lemma regroup_prefix (a x b rest : string) :
  (a +:+ x +:+ b) +:+ rest = a +:+ x +:+ b +:+ rest.
Proof. rewrite !append_assoc. reflexivity. Qed.

(** The body chunk is fixed text around the two places where
    [armorDownloadMs] is displayed. *)
Lemma generateBodyChunk_shape (d : Z) :
  exists before between after,
    forall c, dungeonDelayMs c = d ->
      generateBodyChunk c =
        before +:+ numberToString (armorDownloadMs c)
               +:+ between +:+ numberToString (armorDownloadMs c)
               +:+ after.
Proof.
  eexists _, _, _. intros c Hc. unfold generateBodyChunk. rewrite Hc.
  symmetry. apply regroup_prefix.
Qed.

End Chunks.

(** ** The page of the non-streaming handler *)

Section FullPage.
Context `{NumberFormat}.

Lemma endsWith_append (a b suffix : string) :
  endsWith b suffix -> endsWith (a +:+ b) suffix.
Proof.
  intros [before ->]. exists (a +:+ before). symmetry. apply append_assoc.
Qed.


End FullPage.

#[local] Opaque generateHeadChunk generateBodyChunk generateErrorChunk
  generateFullPageHTML encodeChunk.

Section Failures.
Context {S : Type} `{NumberFormat}.
Variable delay : Z -> S -> Settlement * S.
Variable writer : StreamWriter S.
Variable config : QuestConfig.

(** C1 (amended). When the head-chunk write throws, the routine performs
    no delay and writes no body chunk, but it does enter the catch
    clause: it writes an error chunk carrying the exception's message,
    and then closes the writer. *)
Theorem failed_head_write_is_reported_then_closed (s s1 : S) (e : JsValue) :
  write writer (headChunk config) s = (Rejected e, s1) ->
  runJournal (streamQuestContentWith delay writer config) s =
    [ phase1; (WriterWrite (headChunk config), Rejected e) ]
      ++ recovery e (fst (write writer (errorChunk e) s1))
      ++ closing (fst (close writer (snd (write writer (errorChunk e) s1)))).
Proof.
  intros Hhead.
  unfold runJournal, async, streamQuestContentWith, tryCatchFinally, bind,
    await, console_log, console_error, start.
  cbn [store journal app].
  fold (headChunk config). rewrite Hhead.
  cbn [store journal app]. fold (errorChunk e).
  destruct (write writer (errorChunk e) s1) as [r s2].
  cbn [store journal app fst snd].
  destruct (close writer s2) as [rc s3].
  destruct r, rc; reflexivity.
Qed.

(** C2 (amended). The promise of the routine is rejected exactly when the
    close is rejected or the write of the error chunk is rejected; a
    failure of the head write, of the delay or of the body write alone
    is caught and leaves the promise fulfilled. *)
Theorem promise_rejected_iff_recovery_or_close_rejected (s : S) :
  let j := runJournal (streamQuestContentWith delay writer config) s in
  (exists e, runSettlement (streamQuestContentWith delay writer config) s
             = Rejected e)
  <-> closeRejected j \/ errorChunkRejected j.
Proof.
  intros j. subst j.
  assert (Hh := headChunk_not_errorChunk config).
  assert (Hb := bodyChunk_not_errorChunk config).
  unfold closeRejected, errorChunkRejected.
  destruct (run_shape delay writer config s) as [rc|e r rc|e r rc|e r rc];
    destruct rc as [|ec]; try destruct r as [|er]; cbn [afterClose];
    (split;
     [ intros [x Hx]; try discriminate Hx;
       first [ left; eexists; cbn; tauto
             | right; eexists _, _; cbn; tauto ]
     | intros [[x Hin]|[c [x Hin]]]; cbn in Hin;
       try (eexists; reflexivity);
       repeat (destruct Hin as [Hin|Hin];
               [ try discriminate Hin; injection Hin as Hin;
                 exfalso; first [ exact (Hh _ Hin) | exact (Hb _ Hin) ] | ]);
       try contradiction ]).
Qed.

(** Where a delay step settles as the delay function does. *)
Lemma delay_step_settlement (s : S) (ms : Z) (r : Settlement) :
  In (Delay ms, r) (runJournal (streamQuestContentWith delay writer config) s) ->
  exists st, r = fst (delay ms st).
Proof.
  run_routine; cbn; intros Hin;
    repeat (destruct Hin as [Hin|Hin];
            [ try discriminate Hin; injection Hin as <- <-; eexists;
              match goal with Hd : delay _ _ = _ |- _ => rewrite Hd end;
              reflexivity | ]);
    contradiction.
Qed.

End Failures.

(** ** The delay *)

Section Delay.
Context {S : Type} `{NumberFormat} `{Host S}.

Lemma simulateDungeonDelay_fulfils (ms : Z) (st : S) :
  simulateDungeonDelay ms st = (Fulfilled, passTime (Z.max 0 ms) st).
Proof. reflexivity. Qed.

(** C10. [simulateDungeonDelay ms] is fulfilled for every [ms], zero and
    negative ones included, after a wait of [ms] or of zero when [ms] is
    negative; so in a run of the streaming routine every delay step is
    fulfilled, and the catch clause is entered exactly when the write of
    the head chunk or of the body chunk is rejected. *)
Theorem delay_never_rejects (writer : StreamWriter S) (config : QuestConfig) :
  (forall ms st,
      simulateDungeonDelay ms st = (Fulfilled, passTime (Z.max 0 ms) st))
  /\ forall s,
       let j := runJournal (streamQuestContent writer config) s in
       (forall ms r, In (Delay ms, r) j -> r = Fulfilled)
       /\ (errorPathTaken j <->
           exists e, In (WriterWrite (headChunk config), Rejected e) j
                     \/ In (WriterWrite (bodyChunk config), Rejected e) j).
Proof.
  split; [reflexivity|].
  intros s j. subst j. unfold streamQuestContent.
  assert (Hdelay : forall ms r,
             In (Delay ms, r)
                (runJournal
                   (streamQuestContentWith simulateDungeonDelay writer config) s)
             -> r = Fulfilled).
  { intros ms r Hin.
    destruct (delay_step_settlement _ _ _ _ _ _ Hin) as [st ->].
    reflexivity. }
  split; [exact Hdelay|].
  unfold errorPathTaken.
  destruct (run_shape simulateDungeonDelay writer config s)
    as [rc|e r rc|e r rc|e r rc].
  - split.
    + intros (m & e & Hin). cbn in Hin.
      repeat (destruct Hin as [Hin|Hin]; [discriminate Hin|]).
      contradiction.
    + intros [e [Hin|Hin]]; cbn in Hin;
        repeat (destruct Hin as [Hin|Hin]; [discriminate Hin|]);
        contradiction.
  - split; [|intros _; eexists _, _; cbn; tauto].
    intros _. exists e. left. cbn. tauto.
  - exfalso. specialize (Hdelay (dungeonDelayMs config) (Rejected e)).
    cbn in Hdelay. discriminate Hdelay. tauto.
  - split; [|intros _; eexists _, _; cbn; tauto].
    intros _. exists e. right. cbn. tauto.
Qed.

End Delay.

(** ** armorDownloadMs is display text only *)

Section Armor.
Context {S : Type} `{NumberFormat}.
Variable delay : Z -> S -> Settlement * S.
Variable writer : StreamWriter S.

(** C7. Two configs that agree on [dungeonDelayMs] make the routine wait
    for the same durations, whatever the writer does; they make it issue
    the same operations, up to the body chunk written, whenever the
    write of either body chunk settles the same way; and the two body
    chunks are the same text around the two places where
    [armorDownloadMs] is displayed. *)
Theorem armor_download_is_display_only (c1 c2 : QuestConfig) (s : S) :
  dungeonDelayMs c1 = dungeonDelayMs c2 ->
  let j1 := runJournal (streamQuestContentWith delay writer c1) s in
  let j2 := runJournal (streamQuestContentWith delay writer c2) s in
  delaysAwaited j1 = delaysAwaited j2
  /\ ((forall st, fst (write writer (bodyChunk c1) st)
                  = fst (write writer (bodyChunk c2) st)) ->
      Forall2 (sameUpToBody c1 c2) (operations j1) (operations j2))
  /\ exists before between after,
       forall c, dungeonDelayMs c = dungeonDelayMs c1 ->
         generateBodyChunk c =
           before +:+ numberToString (armorDownloadMs c)
                  +:+ between +:+ numberToString (armorDownloadMs c)
                  +:+ after.
Proof.
  intros Hd j1 j2. subst j1 j2.
  assert (Hhead := headChunk_depends_on_delay_only c1 c2 Hd).
  split; [|split; [intros Hblind|]].
  3:{ exact (generateBodyChunk_shape (dungeonDelayMs c1)). }
  all: unfold sameUpToBody, headChunk, bodyChunk in *;
    unfold runJournal, async, streamQuestContentWith, tryCatchFinally, bind,
      await, console_log, console_error, start;
    cbn [store journal app]; rewrite <- Hhead, <- Hd;
    generalize dependent (encodeChunk (generateBodyChunk c1)); intros b1;
    generalize dependent (encodeChunk (generateBodyChunk c2)); intros b2;
    generalize (encodeChunk (generateHeadChunk c1)); intros h; intros;
    destruct (write writer h s) as [[|e] s1];
    cbn [store journal app fst snd].
  all: try (destruct (delay (dungeonDelayMs c1) s1) as [[|e] s2];
            cbn [store journal app fst snd]).
  all: try match goal with
           | Hblind : forall st, fst (write writer ?x st)
                                 = fst (write writer ?y st)
             |- context [write writer ?x ?s2] =>
               pose proof (Hblind s2) as Hb;
               destruct (write writer x s2) as [[|e1] s3];
               destruct (write writer y s2) as [[|e2] s3'];
               cbn [fst] in Hb; try discriminate Hb;
               try (injection Hb as <-);
               cbn [store journal app fst snd]
           end.
  all: repeat (settle_next; cbn [store journal app fst snd]).
  all: try reflexivity.
  all: cbn [operations map fst];
    repeat (constructor; [first [left; reflexivity | right; split; reflexivity]|]);
    constructor.
Qed.

End Armor.

(** ** The pipeline's writer *)

(** C5 (amended). The pipeline writer's [close] and [write] settle
    exactly as the raw stream writer's do, with no guard of their own;
    on a stream that behaves as the Streams standard says, a close that
    follows a close, or that follows a rejected write, is rejected, from
    every state of the stream. *)
Theorem close_settles_as_the_raw_writer_does :
  (forall (S : Type) (ts : TransformStream S) (st : S),
      close (writer (createStreamingPipeline ts)) st = rawClose ts st
      /\ forall chunk,
           write (writer (createStreamingPipeline ts)) chunk st
           = rawWrite ts chunk st)
  /\ (forall st : Isolate,
       fst (close standardWriter (snd (close standardWriter st)))
       = Rejected closedStreamError)
  /\ (forall (st st' : Isolate) chunk e,
       write standardWriter chunk st = (Rejected e, st') ->
       fst (close standardWriter st') = Rejected closedStreamError).
Proof.
  split; [|split].
  - intros S ts st. split; [reflexivity|]. intros chunk. reflexivity.
  - intros st. unfold standardWriter, createStreamingPipeline. cbn [writer close].
    cbn [standardTransformStream rawClose].
    unfold standardClose at 2.
    destruct (streamState st) eqn:Hst; cbn [snd].
    + reflexivity.
    + unfold standardClose. rewrite Hst. reflexivity.
    + unfold standardClose. rewrite Hst. reflexivity.
  - intros st st' chunk e.
    unfold standardWriter, createStreamingPipeline. cbn [writer close write].
    cbn [standardTransformStream rawClose rawWrite].
    unfold standardWrite, standardClose.
    destruct (streamState st) eqn:Hst; intros Hw;
      [discriminate Hw| |]; injection Hw as _ <-; rewrite Hst; reflexivity.
Qed.


(** C5 (counterexample). On a fresh standard stream the first close is
    fulfilled and the second close is rejected. *)
Lemma second_close_rejects :
  fst (close standardWriter freshIsolate) = Fulfilled
  /\ fst (close standardWriter (snd (close standardWriter freshIsolate)))
     = Rejected closedStreamError.
Proof. split; reflexivity. Qed.

(** ** The responses *)

Section Responses.
Context {S : Type} `{NumberFormat} `{Host S}.

(** C6. Whatever the stream behind the pipeline does, the response of the
    streaming handler has status 200 and the three headers of the
    contract. *)
Theorem stream_response_status_and_headers
  (ts : TransformStream S) (request : Request) (env : Env)
  (config : option QuestConfig) :
  let r := response (handleStreamQuest ts request env config) in
  status r = 200
  /\ headers r !! "Content-Type" = Some "text/html; charset=utf-8"
  /\ headers r !! "X-Content-Type-Options" = Some "nosniff"
  /\ headers r !! "Cache-Control" = Some "no-store".
Proof.
  cbn [handleStreamQuest response newResponse status headers initStatus
         initHeaders default].
  repeat split; vm_compute; reflexivity.
Qed.

Lemma handleNoStreamQuest_run
  (request : Request) (env : Env) (config : option QuestConfig) (s : S) :
  let cfg := default DEFAULT_QUEST_CONFIG config in
  let s1 := passTime (Z.max 0 (dungeonDelayMs cfg)) s in
  let dbTime := dateNow s1 - dateNow s in
  handleNoStreamQuest request env config (start s) =
    (Normal {| status := 200;
               headers := noStreamHeaders;
               body := TextBody (generateFullPageHTML cfg dbTime) |},
     {| store := s1;
        journal :=
          [ logged "[No-Stream Quest] Starting - will wait for all data before responding";
            (Delay (dungeonDelayMs cfg), Fulfilled);
            logged ("[No-Stream Quest] Database query complete after "
                    +:+ numberToString dbTime +:+ "ms") ] |}).
Proof. reflexivity. Qed.


(** C9. The streaming response carries the header
    [Transfer-Encoding: chunked] as a fourth header; the non-streaming
    response does not carry it. *)
Theorem chunked_header_on_stream_response_only
  (ts : TransformStream S) (request : Request) (env : Env)
  (config : option QuestConfig) (s : S) :
  let r := response (handleStreamQuest ts request env config) in
  headers r !! "Transfer-Encoding" = Some "chunked"
  /\ size (headers r) = 4%nat
  /\ exists r' w,
       handleNoStreamQuest request env config (start s) = (Normal r', w)
       /\ headers r' !! "Transfer-Encoding" = None.
Proof.
  cbn [handleStreamQuest response newResponse status headers initStatus
         initHeaders default].
  split; [vm_compute; reflexivity|].
  split; [vm_compute; reflexivity|].
  eexists _, _. split; [apply handleNoStreamQuest_run|].
  vm_compute. reflexivity.
Qed.

End Responses.

(** ** Runs on the standard stream *)

(** C1 (counterexample). The stream is errored before the first write:
    the head write is rejected, and the routine goes on to write an
    error chunk, which is not the head chunk. *)
Lemma failed_head_write_still_writes_error_chunk :
  let j := runJournal (streamQuestContent standardWriter DEFAULT_QUEST_CONFIG)
             goneIsolate in
  j !! 1%nat = Some (WriterWrite (headChunk DEFAULT_QUEST_CONFIG),
                     Rejected disconnectError)
  /\ j !! 3%nat = Some (WriterWrite (errorChunk disconnectError),
                        Rejected disconnectError)
  /\ errorChunk disconnectError <> headChunk DEFAULT_QUEST_CONFIG.
Proof.
  split; [reflexivity|]. split; [reflexivity|].
  intros Heq. symmetry in Heq. exact (headChunk_not_errorChunk _ _ Heq).
Qed.

(** C1 (witness). The run above has the shape the theorem gives. *)
Lemma failed_head_write_is_reported_then_closed_witness :
  write standardWriter (headChunk DEFAULT_QUEST_CONFIG) goneIsolate
    = (Rejected disconnectError, goneIsolate)
  /\ runJournal
       (streamQuestContentWith simulateDungeonDelay standardWriter
          DEFAULT_QUEST_CONFIG) goneIsolate
     = [ phase1; (WriterWrite (headChunk DEFAULT_QUEST_CONFIG),
                  Rejected disconnectError) ]
         ++ recovery disconnectError (Rejected disconnectError)
         ++ closing (Rejected closedStreamError).
Proof.
  split; [reflexivity|].
  apply (failed_head_write_is_reported_then_closed
           simulateDungeonDelay standardWriter DEFAULT_QUEST_CONFIG
           goneIsolate goneIsolate disconnectError).
  reflexivity.
Defined.

(** C2 (counterexample). The consumer leaves during the delay: the body
    write, the error write and the close are rejected, and so is the
    promise of the routine.  On a stream whose consumer stays, the
    promise is fulfilled. *)
Lemma promise_rejects_when_consumer_leaves :
  runSettlement (streamQuestContent standardWriter DEFAULT_QUEST_CONFIG)
    leavingIsolate = Rejected closedStreamError
  /\ runSettlement (streamQuestContent standardWriter DEFAULT_QUEST_CONFIG)
       freshIsolate = Fulfilled.
Proof. split; reflexivity. Qed.

(** C7 (witness). The default config and one with another
    [armorDownloadMs], on a stream whose consumer stays: the standard
    stream settles a write without looking at the bytes. *)
Lemma armor_download_is_display_only_witness :
  let c1 := DEFAULT_QUEST_CONFIG in
  let c2 := {| dungeonDelayMs := 2000; armorDownloadMs := 900 |} in
  let j1 := runJournal
              (streamQuestContentWith simulateDungeonDelay standardWriter c1)
              freshIsolate in
  let j2 := runJournal
              (streamQuestContentWith simulateDungeonDelay standardWriter c2)
              freshIsolate in
  dungeonDelayMs c1 = dungeonDelayMs c2
  /\ delaysAwaited j1 = delaysAwaited j2
  /\ Forall2 (sameUpToBody c1 c2) (operations j1) (operations j2).
Proof.
  intros c1 c2 j1 j2.
  split; [reflexivity|].
  destruct (armor_download_is_display_only
              simulateDungeonDelay standardWriter c1 c2 freshIsolate
              eq_refl) as (Hdelays & Hoperations & _).
  split; [exact Hdelays|].
  apply Hoperations. intros st.
  unfold standardWriter, createStreamingPipeline; cbn [writer write].
  cbn [standardTransformStream rawWrite]. unfold standardWrite.
  destruct (streamState st); reflexivity.
Defined.

(** ** The code on concrete inputs *)

Example negative_delay_counts_as_zero :
  simulateDungeonDelay (-5) freshIsolate = (Fulfilled, freshIsolate).
Proof. reflexivity. Qed.

Example default_delay_takes_two_seconds :
  clock (snd (simulateDungeonDelay 2000 freshIsolate)) = 2000.
Proof. reflexivity. Qed.

Example quotient_of_default_delay : decimalQuotient 2000 1000 = "2".
Proof. reflexivity. Qed.

Example quotient_with_fraction : decimalQuotient 1250 1000 = "1.25".
Proof. reflexivity. Qed.

(** A run whose consumer stays delivers the head chunk and the body
    chunk, in this order, two seconds apart, and closes the stream. *)
Example happy_path_delivers_head_then_body :
  let w := snd (async (streamQuestContent standardWriter DEFAULT_QUEST_CONFIG)
                  (start freshIsolate)) in
  delivered (store w)
    = [headChunk DEFAULT_QUEST_CONFIG; bodyChunk DEFAULT_QUEST_CONFIG]
  /\ streamState (store w) = Closed
  /\ clock (store w) = 2000
  /\ writerOperations (journal w)
     = [ WriterWrite (headChunk DEFAULT_QUEST_CONFIG);
         WriterWrite (bodyChunk DEFAULT_QUEST_CONFIG);
         WriterClose ].
Proof. repeat split; reflexivity. Qed.

(** A run whose consumer leaves during the delay delivers the head chunk
    only; the body chunk and the error chunk are written and rejected. *)
Example consumer_leaving_gets_head_only :
  let w := snd (async (streamQuestContent standardWriter DEFAULT_QUEST_CONFIG)
                  (start leavingIsolate)) in
  delivered (store w) = [headChunk DEFAULT_QUEST_CONFIG]
  /\ writerOperations (journal w)
     = [ WriterWrite (headChunk DEFAULT_QUEST_CONFIG);
         WriterWrite (bodyChunk DEFAULT_QUEST_CONFIG);
         WriterWrite (errorChunk disconnectError);
         WriterClose ].
Proof. repeat split; reflexivity. Qed.

(** A delay that rejects is reported in an error chunk with its message:
    two chunks are delivered, the head chunk and the error chunk. *)
Example rejecting_delay_delivers_head_and_error :
  let w := snd (async (streamQuestContentWith (rejectingDelay "boom")
                         standardWriter DEFAULT_QUEST_CONFIG)
                  (start freshIsolate)) in
  delivered (store w)
    = [ headChunk DEFAULT_QUEST_CONFIG;
        encodeChunk (generateErrorChunk "boom") ]
  /\ fst (async (streamQuestContentWith (rejectingDelay "boom")
                   standardWriter DEFAULT_QUEST_CONFIG)
            (start freshIsolate)) = Fulfilled.
Proof. repeat split; reflexivity. Qed.

(** ** The document that the streaming routine writes *)

#[local] Transparent generateHeadChunk generateBodyChunk generateErrorChunk
  generateFullPageHTML encodeChunk.

Lemma encodeChunk_append (a b : string) :
  encodeChunk (a +:+ b) = encodeChunk a ++ encodeChunk b.
Proof.
  unfold encodeChunk, list_byte_of_string.
  induction a as [|x a IH]; [reflexivity|].
  change (byte_of_ascii x
            :: map byte_of_ascii (list_ascii_of_string (a +:+ b))
          = byte_of_ascii x
            :: (map byte_of_ascii (list_ascii_of_string a)
                ++ map byte_of_ascii (list_ascii_of_string b))).
  rewrite IH. reflexivity.
Qed.

Section Document.
Context `{NumberFormat}.

Lemma generateHeadChunk_opens_document (config : QuestConfig) :
  String.prefix "<!DOCTYPE html>" (generateHeadChunk config) = true.
Proof. vm_compute. reflexivity. Qed.

Lemma generateBodyChunk_closes_document (config : QuestConfig) :
  endsWith (generateBodyChunk config) "</body>
</html>
".
Proof.
  unfold generateBodyChunk.
  repeat apply endsWith_append.
  match goal with
  | |- endsWith ?s ?x =>
      exists (String.substring 0 (String.length s - String.length x) s)
  end.
  vm_compute. reflexivity.
Qed.

Lemma prefix_append (p a b : string) :
  String.prefix p a = true -> String.prefix p (a +:+ b) = true.
Proof.
  revert a. induction p as [|c p IH]; intros a Hp.
  - destruct (a +:+ b); reflexivity.
  - destruct a as [|x a]; [discriminate Hp|].
    change (String.prefix (String c p) (String x (a +:+ b)) = true).
    cbn [String.prefix] in *.
    destruct (ascii_dec c x); [apply IH; exact Hp | discriminate Hp].
Qed.

Lemma generateFullPageHTML_reads_delay_only (c1 c2 : QuestConfig) (dbTime : Z) :
  dungeonDelayMs c1 = dungeonDelayMs c2 ->
  generateFullPageHTML c1 dbTime = generateFullPageHTML c2 dbTime.
Proof.
  intros Hd. unfold generateFullPageHTML. rewrite Hd. reflexivity.
Qed.

End Document.

#[local] Opaque generateHeadChunk generateBodyChunk generateErrorChunk
  generateFullPageHTML encodeChunk.

Section WrittenDocument.
Context {S : Type} `{NumberFormat}.
Variable delay : Z -> S -> Settlement * S.
Variable writer : StreamWriter S.
Variable config : QuestConfig.

(** X1. A run that does not enter the catch clause writes the head chunk
    and then the body chunk and closes; the bytes of the two chunks, one
    after the other, are the encoding of one text that starts with the
    doctype and ends with the closing tag of the html element. *)
Theorem completed_run_writes_a_whole_document (s : S) :
  ~ errorPathTaken (runJournal (streamQuestContentWith delay writer config) s) ->
  writerOperations (runJournal (streamQuestContentWith delay writer config) s)
    = [ WriterWrite (headChunk config); WriterWrite (bodyChunk config);
        WriterClose ]
  /\ headChunk config ++ bodyChunk config
     = encodeChunk (generateHeadChunk config +:+ generateBodyChunk config)
  /\ String.prefix "<!DOCTYPE html>"
       (generateHeadChunk config +:+ generateBodyChunk config) = true
  /\ endsWith (generateHeadChunk config +:+ generateBodyChunk config)
       "</body>
</html>
".
Proof.
  intros Hno.
  split.
  { destruct (run_shape delay writer config s) as [rc|e r rc|e r rc|e r rc];
      [reflexivity| | |];
      exfalso; apply Hno; eexists _, e; cbn; tauto. }
  split; [symmetry; apply encodeChunk_append|].
  split.
  - apply prefix_append, generateHeadChunk_opens_document.
  - apply endsWith_append, generateBodyChunk_closes_document.
Qed.


End WrittenDocument.

(** X1 (witness). The default config on a stream whose consumer stays. *)
Lemma completed_run_writes_a_whole_document_witness :
  ~ errorPathTaken
      (runJournal
         (streamQuestContentWith simulateDungeonDelay standardWriter
            DEFAULT_QUEST_CONFIG) freshIsolate)
  /\ writerOperations
       (runJournal
          (streamQuestContentWith simulateDungeonDelay standardWriter
             DEFAULT_QUEST_CONFIG) freshIsolate)
     = [ WriterWrite (headChunk DEFAULT_QUEST_CONFIG);
         WriterWrite (bodyChunk DEFAULT_QUEST_CONFIG); WriterClose ].
Proof.
  assert (Hno : ~ errorPathTaken
                  (runJournal
                     (streamQuestContentWith simulateDungeonDelay standardWriter
                        DEFAULT_QUEST_CONFIG) freshIsolate)).
  { intros (m & e & Hin). cbn in Hin.
    repeat (destruct Hin as [Hin|Hin]; [discriminate Hin|]). contradiction. }
  split; [exact Hno|].
  exact (proj1 (completed_run_writes_a_whole_document
                  simulateDungeonDelay standardWriter DEFAULT_QUEST_CONFIG
                  freshIsolate Hno)).
Defined.


(** ** What the handlers do not read *)

Section Unread.
Context {S : Type} `{NumberFormat} `{Host S}.

(** X3. The non-streaming handler reads [dungeonDelayMs] only: two calls
    whose configs agree on it give the same response and the same steps,
    whatever the requests, the environments and the two
    [armorDownloadMs]. *)
Theorem no_stream_reads_the_delay_only
  (request1 request2 : Request) (env1 env2 : Env) (c1 c2 : QuestConfig)
  (s : S) :
  dungeonDelayMs c1 = dungeonDelayMs c2 ->
  handleNoStreamQuest request1 env1 (Some c1) (start s)
  = handleNoStreamQuest request2 env2 (Some c2) (start s).
Proof.
  intros Hd. rewrite !handleNoStreamQuest_run.
  change (default DEFAULT_QUEST_CONFIG (Some c1)) with c1.
  change (default DEFAULT_QUEST_CONFIG (Some c2)) with c2.
  rewrite <- Hd.
  rewrite (generateFullPageHTML_reads_delay_only c1 c2 _ Hd).
  reflexivity.
Qed.

End Unread.

(** X3 (witness). Two requests with the default delay and two different
    armor times. *)
Lemma no_stream_reads_the_delay_only_witness :
  handleNoStreamQuest
    {| method := "GET"; url := "https://quest.example/quest/no-stream" |}
    {| ASSETS := None |} (Some DEFAULT_QUEST_CONFIG) (start freshIsolate)
  = handleNoStreamQuest
      {| method := "POST"; url := "https://quest.example/other" |}
      {| ASSETS := Some 0%nat |}
      (Some {| dungeonDelayMs := 2000; armorDownloadMs := 5 |})
      (start freshIsolate).
Proof.
  apply (no_stream_reads_the_delay_only
           {| method := "GET"; url := "https://quest.example/quest/no-stream" |}
           {| method := "POST"; url := "https://quest.example/other" |}
           {| ASSETS := None |} {| ASSETS := Some 0%nat |}
           DEFAULT_QUEST_CONFIG
           {| dungeonDelayMs := 2000; armorDownloadMs := 5 |} freshIsolate).
  reflexivity.
Defined.

(** ** The streaming routine on a standard stream *)

Section StandardStream.
Context `{NumberFormat}.


End StandardStream.

(** ** The router *)

Section RouterFacts.
Context {S : Type} `{NumberFormat} `{Host S} `{Platform S}.

Ltac route :=
  unfold fetch, bind, new_URL_pathname, console_log, ret, start;
  cbn [store journal app].


(** X6. On the path [/quest/no-stream] the router waits for the delay of
    the default config, whatever the request and the environment are,
    and only then resolves, with the whole page and nothing handed to
    [ctx.waitUntil]. *)
Theorem no_stream_route_waits_for_the_default_delay
  (ts : TransformStream S) (request : Request) (env : Env) (s : S) :
  pathnameOf (url request) = Normal "/quest/no-stream" ->
  exists r w,
    fetch ts request env (start s) = (Normal r, w)
    /\ delaysAwaited (journal w) = [2000]
    /\ store w = passTime 2000 s
    /\ background r = None
    /\ body (reply r)
       = TextBody (generateFullPageHTML DEFAULT_QUEST_CONFIG
                     (dateNow (passTime 2000 s) - dateNow s))
    /\ status (reply r) = 200.
Proof.
  intros Hpath. eexists _, _. split.
  - route. rewrite Hpath. cbn [String.eqb Ascii.eqb Bool.eqb].
    unfold handleNoStreamQuest, bind, date_now, await, console_log, ret.
    cbn [store journal app default]. reflexivity.
  - cbn [journal store reply background]. repeat split; reflexivity.
Qed.

(** X7. A path that is not exactly one of the four routes is never
    answered by the Worker's own pages: with no assets binding the
    answer is 404 [Not Found], plain text with the content type that
    comes with a string body and no other header, and with an assets
    binding the answer of [fetch] is the answer of the binding, a
    rejection included; the only step performed is the router's log
    line. *)
Theorem unrouted_path_goes_to_assets_or_404
  (ts : TransformStream S) (request : Request) (env : Env) (path : string)
  (s : S) :
  pathnameOf (url request) = Normal path ->
  ~ In path routes ->
  fetch ts request env (start s)
  = match ASSETS env with
    | None =>
        (Normal {| reply :=
                     {| status := 404;
                        headers :=
                          {[ "Content-Type" := "text/plain;charset=UTF-8" ]};
                        body := TextBody "Not Found" |};
                   background := None |},
         {| store := s;
            journal :=
              [logged ("[Router] " +:+ method request +:+ " " +:+ path)] |})
    | Some fetcher =>
        (match fst (assetsFetch fetcher request s) with
         | Normal r => Normal {| reply := r; background := None |}
         | Thrown e => Thrown e
         end,
         {| store := snd (assetsFetch fetcher request s);
            journal :=
              [logged ("[Router] " +:+ method request +:+ " " +:+ path)] |})
    end.
Proof.
  intros Hpath Hroutes. route. rewrite Hpath.
  cbn [store journal app].
  destruct (String.eqb_spec path "/quest") as [->|_];
    [exfalso; apply Hroutes; cbn; tauto|].
  destruct (String.eqb_spec path "/quest/no-stream") as [->|_];
    [exfalso; apply Hroutes; cbn; tauto|].
  destruct (String.eqb_spec path "/compare") as [->|_];
    [exfalso; apply Hroutes; cbn; tauto|].
  destruct (String.eqb_spec path "/api/config") as [->|_];
    [exfalso; apply Hroutes; cbn; tauto|].
  destruct (ASSETS env) as [fetcher|]; [|reflexivity].
  unfold assets_fetch. cbn [store journal].
  destruct (assetsFetch fetcher request s) as [[r|e] s1]; reflexivity.
Qed.

(** X8. The promise of [fetch] is rejected only when the URL of the
    request cannot be parsed, or when the path is none of the four
    routes and the assets binding rejects: the Worker's own four routes
    always resolve. *)
Theorem fetch_rejects_only_for_bad_url_or_assets
  (ts : TransformStream S) (request : Request) (env : Env) (s : S)
  (e : JsValue) (w : World S) :
  fetch ts request env (start s) = (Thrown e, w) ->
  pathnameOf (url request) = Thrown e
  \/ exists path fetcher,
       pathnameOf (url request) = Normal path
       /\ ~ In path routes
       /\ ASSETS env = Some fetcher
       /\ fst (assetsFetch fetcher request s) = Thrown e.
Proof.
  route.
  destruct (pathnameOf (url request)) as [path|e'] eqn:Hpath.
  2:{ intros Hf. injection Hf as -> _. left. reflexivity. }
  cbn [store journal app].
  destruct (String.eqb_spec path "/quest") as [->|Hq];
    [intros Hf; discriminate Hf|].
  destruct (String.eqb_spec path "/quest/no-stream") as [->|Hn].
  { unfold handleNoStreamQuest, bind, date_now, await, console_log, ret.
    cbn [store journal app default]. intros Hf. discriminate Hf. }
  destruct (String.eqb_spec path "/compare") as [->|Hc];
    [intros Hf; discriminate Hf|].
  destruct (String.eqb_spec path "/api/config") as [->|Ha];
    [intros Hf; discriminate Hf|].
  destruct (ASSETS env) as [fetcher|] eqn:Hassets;
    [|intros Hf; discriminate Hf].
  unfold assets_fetch. cbn [store journal].
  destruct (assetsFetch fetcher request s) as [[r|e'] s1] eqn:Hfetch;
    intros Hf; [discriminate Hf|].
  injection Hf as -> _. right. exists path, fetcher.
  split; [reflexivity|]. split.
  - cbn. intros [Hx|[Hx|[Hx|[Hx|[]]]]]; congruence.
  - split; [reflexivity|]. rewrite Hfetch. reflexivity.
Qed.

End RouterFacts.

(** ** The pages that need no backend *)

Lemma getComparisonHTML_complete :
  String.prefix "<!DOCTYPE html>" getComparisonHTML = true
  /\ endsWith getComparisonHTML "</body>
</html>".
Proof.
  split; [vm_compute; reflexivity|].
  unfold getComparisonHTML.
  repeat apply endsWith_append.
  match goal with
  | |- endsWith ?s ?x =>
      exists (String.substring 0 (String.length s - String.length x) s)
  end.
  vm_compute. reflexivity.
Qed.

Section StaticRoutes.
Context {S : Type} `{NumberFormat} `{Host S} `{Platform S}.

(** X15. On the paths [/compare] and [/api/config] the router answers
    with status 200 without touching the store: it awaits no delay,
    hands nothing to [ctx.waitUntil], and the answer does not depend on
    the request or the environment.  The comparison page is one whole
    HTML document, and of the headers of the quest pages it carries the
    content type only. *)
Theorem static_routes_answer_without_waiting
  (ts : TransformStream S) (request : Request) (env : Env) (path : string)
  (s : S) :
  pathnameOf (url request) = Normal path ->
  path = "/compare" \/ path = "/api/config" ->
  exists r,
    fetch ts request env (start s)
    = (Normal {| reply := r; background := None |},
       {| store := s;
          journal :=
            [logged ("[Router] " +:+ method request +:+ " " +:+ path)] |})
    /\ status r = 200
    /\ (path = "/compare" ->
        r = {| status := 200;
               headers := {[ "Content-Type" := "text/html; charset=utf-8" ]};
               body := TextBody getComparisonHTML |}
        /\ headers r !! "Cache-Control" = None
        /\ String.prefix "<!DOCTYPE html>" getComparisonHTML = true
        /\ endsWith getComparisonHTML "</body>
</html>")
    /\ (path = "/api/config" ->
        body r = TextBody (jsonStringify configJson)
        /\ headers r !! "content-type" = Some "application/json").
Proof.
  intros Hpath [-> | ->]; eexists; (split; [|split; [|split]]).
  - unfold fetch, bind, new_URL_pathname, console_log, ret, start.
    cbn [store journal app]. rewrite Hpath. reflexivity.
  - reflexivity.
  - intros _. split; [reflexivity|]. split; [vm_compute; reflexivity|].
    exact getComparisonHTML_complete.
  - intros Hx. discriminate Hx.
  - unfold fetch, bind, new_URL_pathname, console_log, ret, start.
    cbn [store journal app]. rewrite Hpath. reflexivity.
  - reflexivity.
  - intros Hx. discriminate Hx.
  - intros _. split; [reflexivity|]. vm_compute. reflexivity.
Qed.

End StaticRoutes.

(** X15 (witness). A request for [/compare]. *)
Lemma static_routes_answer_without_waiting_witness :
  let request := {| method := "GET"; url := "https://quest.example/compare" |} in
  pathnameOf (url request) = Normal "/compare"
  /\ exists r,
       fetch standardTransformStream request {| ASSETS := None |}
         (start freshIsolate)
       = (Normal {| reply := r; background := None |},
          {| store := freshIsolate;
             journal :=
               [logged ("[Router] " +:+ method request +:+ " " +:+ "/compare")] |})
       /\ status r = 200
       /\ body r = TextBody getComparisonHTML.
Proof.
  intros request.
  assert (Hpath : pathnameOf (url request) = Normal "/compare")
    by reflexivity.
  split; [exact Hpath|].
  destruct (static_routes_answer_without_waiting
              standardTransformStream request {| ASSETS := None |} "/compare"
              freshIsolate Hpath (or_introl eq_refl))
    as (r & Hfetch & Hstatus & Hcompare & _).
  exists r. split; [exact Hfetch|]. split; [exact Hstatus|].
  destruct (Hcompare eq_refl) as [-> _]. reflexivity.
Defined.


(** X6 (witness). A request for [/quest/no-stream] that asks for no
    delay in its query string still waits two seconds. *)
Lemma no_stream_route_waits_for_the_default_delay_witness :
  let request := {| method := "GET";
                    url := "https://quest.example/quest/no-stream?delay=0" |} in
  pathnameOf (url request) = Normal "/quest/no-stream"
  /\ exists r w,
       fetch standardTransformStream request {| ASSETS := None |}
         (start freshIsolate) = (Normal r, w)
       /\ delaysAwaited (journal w) = [2000]
       /\ store w = passTime 2000 freshIsolate
       /\ background r = None
       /\ body (reply r)
          = TextBody (generateFullPageHTML DEFAULT_QUEST_CONFIG
                        (dateNow (passTime 2000 freshIsolate)
                         - dateNow freshIsolate))
       /\ status (reply r) = 200.
Proof.
  intros request. split; [reflexivity|].
  apply (no_stream_route_waits_for_the_default_delay
           standardTransformStream request {| ASSETS := None |} freshIsolate).
  reflexivity.
Defined.

(** X7 (witness). The path [/quest/], with a slash at the end, is not a
    route: without an assets binding the answer is 404, as plain text. *)
Lemma unrouted_path_goes_to_assets_or_404_witness :
  let request := {| method := "GET"; url := "https://quest.example/quest/" |} in
  pathnameOf (url request) = Normal "/quest/"
  /\ ~ In "/quest/" routes
  /\ fetch standardTransformStream request {| ASSETS := None |}
       (start freshIsolate)
     = (Normal {| reply :=
                    {| status := 404;
                       headers :=
                         {[ "Content-Type" := "text/plain;charset=UTF-8" ]};
                       body := TextBody "Not Found" |};
                  background := None |},
        {| store := freshIsolate;
           journal :=
             [logged ("[Router] " +:+ method request +:+ " " +:+ "/quest/")] |}).
Proof.
  intros request.
  assert (Hroutes : ~ In "/quest/" routes).
  { cbn. intros [Hx|[Hx|[Hx|[Hx|[]]]]]; discriminate Hx. }
  split; [reflexivity|]. split; [exact Hroutes|].
  apply (unrouted_path_goes_to_assets_or_404
           standardTransformStream request {| ASSETS := None |} "/quest/"
           freshIsolate); [reflexivity | exact Hroutes].
Defined.

(** X8 (witness). A request whose URL has no scheme is rejected by the
    URL constructor. *)
Lemma fetch_rejects_only_for_bad_url_or_assets_witness :
  let request := {| method := "GET"; url := "/quest" |} in
  fetch standardTransformStream request {| ASSETS := None |}
    (start freshIsolate)
  = (Thrown (ErrorObject "Invalid URL"), start freshIsolate)
  /\ (pathnameOf (url request) = Thrown (ErrorObject "Invalid URL")
      \/ exists path fetcher,
           pathnameOf (url request) = Normal path
           /\ ~ In path routes
           /\ ASSETS {| ASSETS := None |} = Some fetcher
           /\ fst (assetsFetch fetcher request freshIsolate)
              = Thrown (ErrorObject "Invalid URL")).
Proof.
  intros request. split; [reflexivity|].
  apply (fetch_rejects_only_for_bad_url_or_assets
           standardTransformStream request {| ASSETS := None |} freshIsolate
           (ErrorObject "Invalid URL") (start freshIsolate)).
  reflexivity.
Defined.

(** ** The quest logger *)

Module QuestLoggerFacts.
Import QuestLogger.

Section Facts.
Context {Num : Type} `{JsNumber Num}.

Ltac open_browser b :=
  destruct b as [[bst bar btr bcss bjs] btl brd bes bli btt bat bts bws].

Ltac run_script :=
  cbv beta iota zeta delta
    [call onCssLoaded onJsLoaded onTreasureReceived showFinalStats
       checkArmorEquipped logToQuest getElapsedTime performanceNow setState
       questState timeline reads questEntries loadingIndicator totalTimeEl
       armorTimeEl timeSavedEl warnings startTime armorEquippedTime
       treasureReceivedTime cssLoaded jsLoaded andb negb fst snd].

Ltac fields :=
  cbv beta iota zeta delta
    [questState timeline reads questEntries loadingIndicator totalTimeEl
       armorTimeEl timeSavedEl warnings startTime armorEquippedTime
       treasureReceivedTime cssLoaded jsLoaded andb negb fst snd] in *.

Ltac branches :=
  repeat match goal with
    | |- context [if ?x then _ else _] => destruct x eqn:?
    | |- context [match ?x with Some _ => _ | None => _ end] =>
        destruct x eqn:?
    end; fields.

(** One call: the log container is never created, an existing one only
    grows at its end by entries of class [log-entry], and warnings are
    only given when there is no container. *)
Lemma call_appends (c : Call Num) (b : Browser Num) :
  match questEntries b with
  | None =>
      questEntries (call c b) = None
      /\ exists more, warnings (call c b) = warnings b ++ more
  | Some entries =>
      exists added,
        questEntries (call c b) = Some (entries ++ added)
        /\ Forall (fun e => className e = "log-entry") added
        /\ warnings (call c b) = warnings b
  end.
Proof.
  open_browser b. destruct bes as [entries|]; destruct c; run_script;
    branches.
  all: try (split; [reflexivity|]; eexists;
            first [ rewrite app_nil_r; reflexivity
                  | reflexivity
                  | rewrite <- app_assoc; reflexivity ]).
  all: try (exists []; rewrite app_nil_r;
            split; [reflexivity|]; split; [constructor | reflexivity]).
  all: try (eexists [_]; split; [reflexivity|];
            split; [repeat constructor | reflexivity]).
  all: try (eexists [_; _]; rewrite <- app_assoc;
            split; [reflexivity|];
            split; [repeat constructor | reflexivity]).
Qed.

(** X9. Whatever calls the page makes on the logger, in any order: a
    quest log that is in the document only grows at its end, by entries
    of class [log-entry], and no warning is given; a quest log that is
    not in the document is never created, and the warnings only grow. *)
Theorem quest_log_is_append_only (cs : list (Call Num)) (b : Browser Num) :
  match questEntries b with
  | None =>
      questEntries (calls cs b) = None
      /\ exists more, warnings (calls cs b) = warnings b ++ more
  | Some entries =>
      exists added,
        questEntries (calls cs b) = Some (entries ++ added)
        /\ Forall (fun e => className e = "log-entry") added
        /\ warnings (calls cs b) = warnings b
  end.
Proof.
  revert b. induction cs as [|c cs IH]; intros b.
  - cbn. destruct (questEntries b).
    + exists []. rewrite app_nil_r. repeat split. constructor.
    + split; [reflexivity|]. exists []. rewrite app_nil_r. reflexivity.
  - change (calls (c :: cs) b) with (calls cs (call c b)).
    pose proof (call_appends c b) as Hc. specialize (IH (call c b)).
    destruct (questEntries b) as [entries|].
    + destruct Hc as (a1 & He1 & Hf1 & Hw1). rewrite He1 in IH.
      destruct IH as (a2 & He2 & Hf2 & Hw2).
      exists (a1 ++ a2). rewrite He2, Hw2, Hw1, app_assoc.
      repeat split. apply Forall_app; split; assumption.
    + destruct Hc as (He1 & m1 & Hw1). rewrite He1 in IH.
      destruct IH as (He2 & m2 & Hw2).
      split; [exact He2|]. exists (m1 ++ m2).
      rewrite Hw2, Hw1, app_assoc. reflexivity.
Qed.

(** One call: the clock and the start time stay, the readings only
    advance, and a flag is set exactly by its own call and stays set. *)
Lemma call_flags (c : Call Num) (b : Browser Num) :
  timeline (call c b) = timeline b
  /\ startTime (questState (call c b)) = startTime (questState b)
  /\ (reads b <= reads (call c b))%nat
  /\ (cssLoaded (questState (call c b)) = true
      <-> cssLoaded (questState b) = true \/ c = CssLoaded)
  /\ (jsLoaded (questState (call c b)) = true
      <-> jsLoaded (questState b) = true \/ c = JsLoaded).
Proof.
  open_browser b. destruct c; run_script; branches.
  all: repeat split; try reflexivity; try lia; try tauto.
  all: try (intros [Hx|Hx]; [exact Hx | discriminate Hx]).
  all: try (intros [Hx|Hx]; [discriminate Hx | discriminate Hx]).
Qed.

(** One call keeps the link between the armor time and the two flags. *)
Lemma call_armor (c : Call Num) (b : Browser Num) :
  (armorEquippedTime (questState b) <> None
   <-> cssLoaded (questState b) = true /\ jsLoaded (questState b) = true) ->
  (armorEquippedTime (questState (call c b)) <> None
   <-> cssLoaded (questState (call c b)) = true
       /\ jsLoaded (questState (call c b)) = true).
Proof.
  open_browser b. fields. intros Hinv.
  destruct c; run_script; branches; try exact Hinv.
  all: destruct bcss, bjs; try discriminate; fields.
  all: split; [try tauto|try (intros _; discriminate)].
  all: try (intros Hx; exfalso; apply Hx; reflexivity).
  all: try (intros Hx; apply Hinv in Hx; destruct Hx; discriminate).
  all: try tauto.
  all: intros _; destruct bar; [discriminate|];
    match goal with Hx : _ = false |- _ => discriminate Hx end.
Qed.

Lemma calls_flags (cs : list (Call Num)) (b : Browser Num) :
  timeline (calls cs b) = timeline b
  /\ startTime (questState (calls cs b)) = startTime (questState b)
  /\ (reads b <= reads (calls cs b))%nat
  /\ (cssLoaded (questState (calls cs b)) = true
      <-> cssLoaded (questState b) = true \/ In CssLoaded cs)
  /\ (jsLoaded (questState (calls cs b)) = true
      <-> jsLoaded (questState b) = true \/ In JsLoaded cs).
Proof.
  revert b. induction cs as [|c cs IH]; intros b.
  - cbn. repeat split; try lia; tauto.
  - change (calls (c :: cs) b) with (calls cs (call c b)).
    destruct (IH (call c b)) as (Ht & Hs & Hr & Hcss & Hjs).
    destruct (call_flags c b) as (Ht1 & Hs1 & Hr1 & Hcss1 & Hjs1).
    rewrite Ht, Hs, Ht1, Hs1, Hcss, Hjs, Hcss1, Hjs1.
    repeat split; try reflexivity; try lia; cbn [In];
      intuition congruence.
Qed.

Lemma calls_armor (cs : list (Call Num)) (b : Browser Num) :
  (armorEquippedTime (questState b) <> None
   <-> cssLoaded (questState b) = true /\ jsLoaded (questState b) = true) ->
  (armorEquippedTime (questState (calls cs b)) <> None
   <-> cssLoaded (questState (calls cs b)) = true
       /\ jsLoaded (questState (calls cs b)) = true).
Proof.
  revert b. induction cs as [|c cs IH]; intros b Hinv; [exact Hinv|].
  change (calls (c :: cs) b) with (calls cs (call c b)).
  apply IH, call_armor, Hinv.
Qed.

(** X10. From the moment the script is loaded, whatever calls the page
    makes and in whatever order: each of the two flags is set exactly
    when its call has been made, and the armor time is recorded exactly
    when both the stylesheet call and the script call have been made. *)
Theorem armor_is_equipped_exactly_when_both_have_loaded
  (clock : nat -> Num) (entries : option (list LogEntry))
  (indicator : option (list string)) (total armor saved : option string)
  (cs : list (Call Num)) :
  let b := calls cs (load clock entries indicator total armor saved) in
  (cssLoaded (questState b) = true <-> In CssLoaded cs)
  /\ (jsLoaded (questState b) = true <-> In JsLoaded cs)
  /\ (armorEquippedTime (questState b) <> None
      <-> In CssLoaded cs /\ In JsLoaded cs).
Proof.
  intros b. subst b.
  set (b0 := load clock entries indicator total armor saved).
  destruct (calls_flags cs b0) as (_ & _ & _ & Hcss & Hjs).
  assert (Harmor := calls_armor cs b0).
  cbn [b0 load questState cssLoaded jsLoaded armorEquippedTime] in *.
  assert (Hcss' : cssLoaded (questState (calls cs b0)) = true
                  <-> In CssLoaded cs)
    by (rewrite Hcss; intuition discriminate).
  assert (Hjs' : jsLoaded (questState (calls cs b0)) = true
                 <-> In JsLoaded cs)
    by (rewrite Hjs; intuition discriminate).
  split; [exact Hcss'|]. split; [exact Hjs'|].
  rewrite <- Hcss', <- Hjs'. apply Harmor.
  split; [intros Hx; exfalso; apply Hx; reflexivity
         | intros [Hx _]; discriminate Hx].
Qed.

(** One call that reports a loaded asset, on a page with a quest log:
    either nothing is logged and the armor time stays, or the armor time
    was not recorded yet, it is recorded now and its entry is logged. *)
Lemma load_call_effect (c : Call Num) (b : Browser Num)
  (es : list LogEntry) :
  isLoadCall c ->
  (forall t, armorEquippedTime (questState b) = Some t -> numTruthy t = true) ->
  elapsedTruthy b ->
  questEntries b = Some es ->
  (forall t, armorEquippedTime (questState (call c b)) = Some t ->
             numTruthy t = true)
  /\ elapsedTruthy (call c b)
  /\ ((questEntries (call c b) = Some es
       /\ armorEquippedTime (questState (call c b))
          = armorEquippedTime (questState b))
      \/ (armorEquippedTime (questState b) = None
          /\ exists ms t,
               armorEquippedTime (questState (call c b)) = Some t
               /\ questEntries (call c b) = Some (es ++ [armorEntry ms t]))).
Proof.
  intros Hc Htruthy Helapsed Hes.
  assert (Hlater : elapsedTruthy (call c b)).
  { destruct (call_flags c b) as (Ht & Hs & Hr & _).
    unfold elapsedTruthy in *. rewrite Ht, Hs.
    intros n Hn. apply Helapsed. lia. }
  split; [|split; [exact Hlater|]].
  - clear Hlater. open_browser b. unfold elapsedTruthy in Helapsed.
    fields. subst bes.
    destruct Hc as [-> | ->]; run_script; branches;
      intros t Ht; try (apply Htruthy; exact Ht);
      injection Ht as <-; apply Helapsed; lia.
  - clear Hlater. open_browser b. fields. subst bes.
    destruct Hc as [-> | ->]; run_script; branches;
      try (left; split; reflexivity).
    all: right; split;
      [ destruct bar as [t|]; [|reflexivity];
        exfalso; rewrite (Htruthy t eq_refl) in *;
        match goal with
        | Hx : (if ?v then _ else _) = true |- _ => destruct v; discriminate Hx
        end
      | eexists _, _; split; reflexivity ].
Qed.

(** X11. Once the armor time holds a truthy value, no call changes it,
    whatever the page calls and in whatever order. *)
Theorem armor_time_is_kept_once_recorded
  (cs : list (Call Num)) (b : Browser Num) (t : Num) :
  armorEquippedTime (questState b) = Some t ->
  numTruthy t = true ->
  armorEquippedTime (questState (calls cs b)) = Some t.
Proof.
  revert b. induction cs as [|c cs IH]; intros b Ht Htruthy; [exact Ht|].
  change (calls (c :: cs) b) with (calls cs (call c b)).
  apply IH; [|exact Htruthy].
  open_browser b. fields. subst bar.
  destruct c; run_script; rewrite ?Htruthy; branches;
    try reflexivity;
    match goal with
    | Hx : (if ?v then _ else _) = true |- _ => destruct v; discriminate Hx
    end.
Qed.

Lemma load_calls_effect (cs : list (Call Num)) (b : Browser Num)
  (es : list LogEntry) :
  Forall isLoadCall cs ->
  (armorEquippedTime (questState b) <> None
   <-> cssLoaded (questState b) = true /\ jsLoaded (questState b) = true) ->
  (forall t, armorEquippedTime (questState b) = Some t -> numTruthy t = true) ->
  elapsedTruthy b ->
  questEntries b = Some es ->
  (armorEquippedTime (questState b) <> None ->
   questEntries (calls cs b) = Some es
   /\ armorEquippedTime (questState (calls cs b))
      = armorEquippedTime (questState b))
  /\ (armorEquippedTime (questState b) = None ->
      (cssLoaded (questState (calls cs b)) = true
       /\ jsLoaded (questState (calls cs b)) = true ->
       exists ms t,
         armorEquippedTime (questState (calls cs b)) = Some t
         /\ questEntries (calls cs b) = Some (es ++ [armorEntry ms t]))
      /\ (~ (cssLoaded (questState (calls cs b)) = true
             /\ jsLoaded (questState (calls cs b)) = true) ->
          questEntries (calls cs b) = Some es)).
Proof.
  intros Hcs. revert b es.
  induction Hcs as [|c cs Hc Hcs IH]; intros b es Hinv Htruthy Helapsed Hes.
  - cbn [calls fold_left]. split; [intros _; split; [exact Hes|reflexivity]|].
    intros Hnone. split; [|intros _; exact Hes].
    intros Hboth. apply Hinv in Hboth. contradiction.
  - change (calls (c :: cs) b) with (calls cs (call c b)).
    destruct (load_call_effect c b es Hc Htruthy Helapsed Hes)
      as (Htruthy1 & Helapsed1 & Hstep).
    pose proof (call_armor c b Hinv) as Hinv1.
    destruct Hstep as [[Hes1 Harmor1] | (Hnone & ms & t & Harmor1 & Hes1)].
    + destruct (IH (call c b) es Hinv1 Htruthy1 Helapsed1 Hes1) as [IHa IHb].
      rewrite Harmor1 in IHa, IHb. split; assumption.
    + destruct (IH (call c b) _ Hinv1 Htruthy1 Helapsed1 Hes1) as [IHa _].
      assert (Hsome : armorEquippedTime (questState (call c b)) <> None)
        by (rewrite Harmor1; discriminate).
      destruct (IHa Hsome) as [Hlog Hkept]. rewrite Harmor1 in Hkept.
      split; [intros Hx; contradiction|]. intros _.
      split.
      * intros _. exists ms, t. split; [exact Hkept | exact Hlog].
      * intros Hnot. exfalso. apply Hnot.
        apply (calls_armor cs (call c b) Hinv1).
        rewrite Hkept. discriminate.
Qed.

(** X12. On a page with a quest log, when every reading of the clock
    after the start is a truthy elapsed time: however many times and in
    whatever order the stylesheets and the script report that they have
    loaded, the armor message is logged exactly once when both kinds
    have reported, with the armor time that is recorded, and nothing is
    logged otherwise. *)
Theorem armor_message_is_logged_exactly_once
  (clock : nat -> Num) (es : list LogEntry)
  (indicator : option (list string)) (total armor saved : option string)
  (cs : list (Call Num)) :
  elapsedTruthy (load clock (Some es) indicator total armor saved) ->
  Forall isLoadCall cs ->
  let b := calls cs (load clock (Some es) indicator total armor saved) in
  (In CssLoaded cs /\ In JsLoaded cs ->
   exists ms t,
     armorEquippedTime (questState b) = Some t
     /\ questEntries b = Some (es ++ [armorEntry ms t]))
  /\ (~ (In CssLoaded cs /\ In JsLoaded cs) -> questEntries b = Some es).
Proof.
  intros Helapsed Hcs b. subst b.
  set (b0 := load clock (Some es) indicator total armor saved) in *.
  assert (Hcss : cssLoaded (questState (calls cs b0)) = true
                 <-> In CssLoaded cs).
  { destruct (calls_flags cs b0) as (_ & _ & _ & Hx & _).
    rewrite Hx. cbn. intuition discriminate. }
  assert (Hjs : jsLoaded (questState (calls cs b0)) = true
                <-> In JsLoaded cs).
  { destruct (calls_flags cs b0) as (_ & _ & _ & _ & Hx).
    rewrite Hx. cbn. intuition discriminate. }
  assert (Hinv : armorEquippedTime (questState b0) <> None
                 <-> cssLoaded (questState b0) = true
                     /\ jsLoaded (questState b0) = true).
  { cbn. split; [intros Hx; exfalso; apply Hx; reflexivity
                | intros [Hx _]; discriminate Hx]. }
  assert (Htruthy : forall t, armorEquippedTime (questState b0) = Some t ->
                              numTruthy t = true)
    by (cbn; intros t Ht; discriminate Ht).
  destruct (load_calls_effect cs b0 es Hcs Hinv Htruthy Helapsed eq_refl)
    as [_ Hnone].
  destruct (Hnone eq_refl) as [Hboth Hnot].
  rewrite Hcss, Hjs in Hboth, Hnot. split; assumption.
Qed.

(** X13. The guard of the armor time tests truthiness, not presence: when
    both flags are set and the recorded armor time is falsy (an elapsed
    time of zero), a further stylesheet report records the armor time
    again and logs the armor message again. *)
Theorem falsy_armor_time_is_recorded_again
  (b : Browser Num) (t : Num) (es : list LogEntry) :
  cssLoaded (questState b) = true ->
  jsLoaded (questState b) = true ->
  armorEquippedTime (questState b) = Some t ->
  numTruthy t = false ->
  questEntries b = Some es ->
  let again := numSub (timeline b (reads b)) (startTime (questState b)) in
  let ms := numSub (timeline b (Datatypes.S (reads b)))
              (startTime (questState b)) in
  armorEquippedTime (questState (onCssLoaded b)) = Some again
  /\ questEntries (onCssLoaded b) = Some (es ++ [armorEntry ms again]).
Proof.
  open_browser b. fields. intros -> -> -> Hfalsy ->.
  run_script. rewrite Hfalsy. fields. split; reflexivity.
Qed.

(** X14. The statistics that [showFinalStats] displays do not depend on
    its argument; the time saved that is displayed is the armor time
    that is displayed, after a tilde; an armor time that was never
    recorded is displayed as zero; and a statistics element that is not
    in the document is left out. *)
Theorem final_stats_display_the_armor_time_as_time_saved
  (d1 d2 : Num) (b : Browser Num) :
  let b1 := showFinalStats d1 b in
  let b2 := showFinalStats d2 b in
  (totalTimeEl b1 = totalTimeEl b2
   /\ armorTimeEl b1 = armorTimeEl b2
   /\ timeSavedEl b1 = timeSavedEl b2)
  /\ (forall shown, armorTimeEl b1 = Some shown ->
       timeSavedEl b <> None -> timeSavedEl b1 = Some ("~" +:+ shown))
  /\ (armorEquippedTime (questState b) = None ->
      armorTimeEl b <> None ->
      armorTimeEl b1 = Some (toFixed0 numZero +:+ "ms"))
  /\ (totalTimeEl b = None -> totalTimeEl b1 = None)
  /\ (armorTimeEl b = None -> armorTimeEl b1 = None)
  /\ (timeSavedEl b = None -> timeSavedEl b1 = None).
Proof.
  intros b1 b2. subst b1 b2. open_browser b.
  run_script. unfold armorTimeOrZero. fields.
  destruct bes as [entries|]; fields.
  all: split; [repeat split|].
  all: split;
    [ intros shown Hshown Hsaved; destruct bat as [x|];
      [|discriminate Hshown]; destruct bts as [y|]; [|contradiction];
      cbn [option_map] in *; injection Hshown as <-; reflexivity |].
  all: split;
    [ intros -> Harmor; destruct bat as [x|]; [reflexivity|contradiction] |].
  all: repeat split; intros ->; reflexivity.
Qed.

End Facts.

End QuestLoggerFacts.

(** ** The quest logger on concrete pages *)

Module QuestLoggerRuns.
Import QuestLogger QuestLoggerFacts.

(** A clock that advances by ten milliseconds at every reading, and one
    that stands still. *)
Lemma ticking_clock_is_truthy (es : list LogEntry) :
  elapsedTruthy
    (load (fun n => Z.of_nat n * 10) (Some es) None None None None).
Proof.
  intros n Hn. cbn in *.
  apply negb_true_iff, Z.eqb_neq. lia.
Qed.

(** X11 (witness). Both assets have reported one millisecond after the
    start; the treasure, a stylesheet and the final statistics follow. *)
Lemma armor_time_is_kept_once_recorded_witness :
  let b := calls [CssLoaded; JsLoaded]
             (load (fun n => Z.of_nat n) (Some []) None None None None) in
  armorEquippedTime (questState b) = Some 1
  /\ numTruthy 1 = true
  /\ armorEquippedTime
       (questState (calls [TreasureReceived; CssLoaded; FinalStats 2000] b))
     = Some 1.
Proof.
  intros b. split; [reflexivity|]. split; [reflexivity|].
  apply (armor_time_is_kept_once_recorded
           [TreasureReceived; CssLoaded; FinalStats 2000] b 1);
    reflexivity.
Defined.

(** X12 (witness). The two stylesheets, the script and a stylesheet once
    more report in this order. *)
Lemma armor_message_is_logged_exactly_once_witness :
  let cs := [CssLoaded; CssLoaded; JsLoaded; CssLoaded] in
  let b := calls cs
             (load (fun n => Z.of_nat n * 10) (Some []) None None None None) in
  elapsedTruthy
    (load (fun n => Z.of_nat n * 10) (Some []) None None None None)
  /\ Forall isLoadCall cs
  /\ In CssLoaded cs /\ In JsLoaded cs
  /\ exists ms t,
       armorEquippedTime (questState b) = Some t
       /\ questEntries b = Some ([] ++ [armorEntry ms t]).
Proof.
  intros cs b.
  assert (Hcs : Forall isLoadCall cs).
  { repeat constructor; first [left; reflexivity | right; reflexivity]. }
  assert (Hboth : In CssLoaded cs /\ In JsLoaded cs) by (cbn; tauto).
  split; [apply ticking_clock_is_truthy|]. split; [exact Hcs|].
  split; [exact (proj1 Hboth)|]. split; [exact (proj2 Hboth)|].
  exact (proj1 (armor_message_is_logged_exactly_once
                  (fun n => Z.of_nat n * 10) [] None None None None cs
                  (ticking_clock_is_truthy []) Hcs) Hboth).
Defined.

(** X13 (witness). On a clock that stands still the armor time recorded
    is zero, and the next stylesheet report logs the armor message a
    second time. *)
Lemma falsy_armor_time_is_recorded_again_witness :
  let b := calls [CssLoaded; JsLoaded]
             (load (fun _ => 0) (Some []) None None None None) in
  cssLoaded (questState b) = true
  /\ jsLoaded (questState b) = true
  /\ armorEquippedTime (questState b) = Some 0
  /\ numTruthy 0 = false
  /\ questEntries b = Some [armorEntry 0 0]
  /\ armorEquippedTime (questState (onCssLoaded b)) = Some 0
  /\ questEntries (onCssLoaded b)
     = Some ([armorEntry 0 0] ++ [armorEntry 0 0]).
Proof.
  intros b.
  split; [reflexivity|]. split; [reflexivity|]. split; [reflexivity|].
  split; [reflexivity|]. split; [reflexivity|].
  exact (falsy_armor_time_is_recorded_again b 0 [armorEntry 0 0]
           eq_refl eq_refl eq_refl eq_refl eq_refl).
Defined.

(** The page of a streamed quest: both stylesheets and the script
    report, the treasure arrives after two seconds, and the statistics
    show the armor time as the time saved. *)
Example streamed_quest_statistics :
  let b := calls [CssLoaded; CssLoaded; JsLoaded; TreasureReceived;
                  FinalStats 2000]
             (load (fun n => Z.of_nat n * 400) (Some []) (Some ["loading"])
                (Some "--") (Some "--") (Some "--")) in
  armorEquippedTime (questState b) = Some 400
  /\ armorTimeEl b = Some "400ms"
  /\ timeSavedEl b = Some "~400ms"
  /\ loadingIndicator b = Some ["loading"; "hidden"]
  /\ option_map (@length LogEntry) (questEntries b) = Some 4%nat.
Proof. repeat split; reflexivity. Qed.

Example formatTimestamp_pads_to_four :
  formatTimestamp 42 = "  42" /\ formatTimestamp 12345 = "12345".
Proof. split; reflexivity. Qed.

End QuestLoggerRuns.

(** ** Responses and their content type *)

Example text_body_gets_the_plain_text_type :
  headers (newResponse (TextBody "Not Found")
             {| initStatus := Some 404; initHeaders := ∅ |})
  = {[ "Content-Type" := "text/plain;charset=UTF-8" ]}.
Proof. reflexivity. Qed.

Example given_content_type_is_kept_whatever_its_case :
  headers (newResponse (TextBody "{}")
             {| initStatus := None;
                initHeaders := {[ "content-type" := "application/json" ]} |})
  = {[ "content-type" := "application/json" ]}.
Proof. reflexivity. Qed.

Example stream_body_gets_no_content_type :
  headers (newResponse (StreamBody 0) {| initStatus := None; initHeaders := ∅ |})
  = ∅.
Proof. reflexivity. Qed.
